(** * JetStream error taxonomy of nats.py ([nats/js/errors.py])

    A shallow embedding of the module's exception classes: the class
    hierarchy with Python's method resolution order, the [__init__] and
    [__str__] methods the classes define, and the two classifying class
    methods [APIError.from_msg] and [APIError.from_error].

    Python values are dynamically typed, so attributes hold values of
    type [pyval]; a call that raises is a [Raise] in the result monad
    [pyres]. *)

From Stdlib Require Import ZArith Ascii DecimalString.
From stdpp Require Import base strings gmap.

Local Open Scope Z_scope.

(** ** Python values and the builtins the module relies on *)

(** The values that reach this module: [None], booleans, unbounded
    integers and text (text is modelled as a byte string). *)
Inductive pyval : Type :=
  | PNone
  | PBool (b : bool)
  | PInt (z : Z)
  | PStr (s : string).

#[global] Instance pyval_eq_dec : EqDecision pyval.
Proof. solve_decision. Defined.

#[global] Instance pyval_inhabited : Inhabited pyval := populate PNone.

(** [str(i)] for an integer: decimal digits, a leading minus sign for a
    negative number.  Integers are unbounded; the interpreter's
    configurable cap on the number of digits it converts is not
    modelled. *)
Definition str_of_int (z : Z) : string :=
  NilEmpty.string_of_int (Z.to_int z).

(** [str(v)], which is also what an f-string field [{v}] expands to. *)
Definition py_str (v : pyval) : string :=
  match v with
  | PNone => "None"
  | PBool true => "True"
  | PBool false => "False"
  | PInt z => str_of_int z
  | PStr s => s
  end.

(** Truth value of [v] in [if v:]. *)
Definition truthy (v : pyval) : bool :=
  match v with
  | PNone => false
  | PBool b => b
  | PInt z => negb (z =? 0)
  | PStr s => negb (String.eqb s "")
  end.

(** Numeric reading of a value: [bool] is a subclass of [int]. *)
Definition as_int (v : pyval) : option Z :=
  match v with
  | PInt z => Some z
  | PBool b => Some (if b then 1 else 0)
  | _ => None
  end.

(** [a == b]. *)
Definition py_eq (a b : pyval) : bool :=
  match as_int a, as_int b with
  | Some x, Some y => x =? y
  | _, _ => bool_decide (a = b)
  end.

(** White space that [int()] strips from ASCII text: the space and the
    five control characters from tab to carriage return. *)
Definition is_space (a : ascii) : bool :=
  let n := Z.of_N (Ascii.N_of_ascii a) in
  ((9 <=? n) && (n <=? 13)) || (n =? 32).

Fixpoint lstrip (s : string) : string :=
  match s with
  | String a s' => if is_space a then lstrip s' else s
  | EmptyString => EmptyString
  end.

Fixpoint rstrip (s : string) : string :=
  match s with
  | String a s' =>
      let r := rstrip s' in
      if is_space a && String.eqb r "" then EmptyString else String a r
  | EmptyString => EmptyString
  end.

Definition digit_of (a : ascii) : option Z :=
  let n := Z.of_N (Ascii.N_of_ascii a) in
  if (48 <=? n) && (n <=? 57) then Some (n - 48) else None.

(** Decimal digits, single underscores allowed between two digits.
    [prev] tells whether the previous character was a digit. *)
Fixpoint parse_digits (acc : Z) (prev : bool) (s : string) : option Z :=
  match s with
  | EmptyString => if prev then Some acc else None
  | String a s' =>
      match digit_of a with
      | Some d => parse_digits (acc * 10 + d) true s'
      | None =>
          if Ascii.eqb a "_"%char && prev then parse_digits acc false s'
          else None
      end
  end.

(** An instance of [int(s)] for text [s] made of ASCII characters:
    surrounding white space is dropped, a sign may lead, and the digits
    follow; [None] stands for [ValueError].  [from_msg] does not depend
    on it: it takes the conversion as a parameter, and this instance
    serves the examples.  Digits and white space outside ASCII, which
    the interpreter accepts as well, are outside this instance. *)
Definition py_int (s : string) : option Z :=
  match rstrip (lstrip s) with
  | String "+"%char r => parse_digits 0 false r
  | String "-"%char r => Z.opp <$> parse_digits 0 false r
  | t => parse_digits 0 false t
  end.

(** ** The classes of the module *)

(** One constructor per class defined in the file, and one for each of
    the two classes of [nats.errors] that the file derives from. *)
Inductive cls : Type :=
  | nats_errors_Error
  | nats_errors_TimeoutError
  | Error
  | APIError
  | ServiceUnavailableError
  | ServerError
  | NotFoundError
  | BadRequestError
  | NoStreamResponseError
  | TooManyStalledMsgsError
  | FetchTimeoutError
  | ConsumerSequenceMismatchError
  | BucketNotFoundError
  | BadBucketError
  | KeyValueError
  | KeyDeletedError
  | KeyNotFoundError
  | KeyWrongLastSequenceError
  | NoKeysError
  | KeyHistoryTooLargeError
  | InvalidBucketNameError
  | InvalidObjectNameError
  | BadObjectMetaError
  | LinkIsABucketError
  | DigestMismatchError
  | ObjectNotFoundError
  | ObjectDeletedError
  | ObjectAlreadyExists.

#[global] Instance cls_eq_dec : EqDecision cls.
Proof. solve_decision. Defined.

Definition all_classes : list cls :=
  [ nats_errors_Error; nats_errors_TimeoutError; Error; APIError;
    ServiceUnavailableError; ServerError; NotFoundError; BadRequestError;
    NoStreamResponseError; TooManyStalledMsgsError; FetchTimeoutError;
    ConsumerSequenceMismatchError; BucketNotFoundError; BadBucketError;
    KeyValueError; KeyDeletedError; KeyNotFoundError;
    KeyWrongLastSequenceError; NoKeysError; KeyHistoryTooLargeError;
    InvalidBucketNameError; InvalidObjectNameError; BadObjectMetaError;
    LinkIsABucketError; DigestMismatchError; ObjectNotFoundError;
    ObjectDeletedError; ObjectAlreadyExists ].

(** [C.__name__] *)
Definition cls_name (c : cls) : string :=
  match c with
  | nats_errors_Error => "Error"
  | nats_errors_TimeoutError => "TimeoutError"
  | Error => "Error"
  | APIError => "APIError"
  | ServiceUnavailableError => "ServiceUnavailableError"
  | ServerError => "ServerError"
  | NotFoundError => "NotFoundError"
  | BadRequestError => "BadRequestError"
  | NoStreamResponseError => "NoStreamResponseError"
  | TooManyStalledMsgsError => "TooManyStalledMsgsError"
  | FetchTimeoutError => "FetchTimeoutError"
  | ConsumerSequenceMismatchError => "ConsumerSequenceMismatchError"
  | BucketNotFoundError => "BucketNotFoundError"
  | BadBucketError => "BadBucketError"
  | KeyValueError => "KeyValueError"
  | KeyDeletedError => "KeyDeletedError"
  | KeyNotFoundError => "KeyNotFoundError"
  | KeyWrongLastSequenceError => "KeyWrongLastSequenceError"
  | NoKeysError => "NoKeysError"
  | KeyHistoryTooLargeError => "KeyHistoryTooLargeError"
  | InvalidBucketNameError => "InvalidBucketNameError"
  | InvalidObjectNameError => "InvalidObjectNameError"
  | BadObjectMetaError => "BadObjectMetaError"
  | LinkIsABucketError => "LinkIsABucketError"
  | DigestMismatchError => "DigestMismatchError"
  | ObjectNotFoundError => "ObjectNotFoundError"
  | ObjectDeletedError => "ObjectDeletedError"
  | ObjectAlreadyExists => "ObjectAlreadyExists"
  end.

(** Modelled from the spec: the class statements of [nats.errors], a
    module that is not among the sources.  Its [Error] is the root of the
    client's exceptions and its [TimeoutError], the general client
    timeout, derives from it; the builtin exceptions above them are left
    out of the model. *)
Definition nats_errors_bases (c : cls) : list cls :=
  match c with
  | nats_errors_TimeoutError => [nats_errors_Error]
  | _ => []
  end.

(** The base classes written in each [class] statement, in order; for the
    two classes of [nats.errors] see [nats_errors_bases]. *)
Definition bases (c : cls) : list cls :=
  match c with
  | nats_errors_Error => nats_errors_bases nats_errors_Error
  | nats_errors_TimeoutError => nats_errors_bases nats_errors_TimeoutError
  | Error => [nats_errors_Error]
  | APIError => [Error]
  | ServiceUnavailableError => [APIError]
  | ServerError => [APIError]
  | NotFoundError => [APIError]
  | BadRequestError => [APIError]
  | NoStreamResponseError => [Error]
  | TooManyStalledMsgsError => [Error]
  | FetchTimeoutError => [nats_errors_TimeoutError]
  | ConsumerSequenceMismatchError => [Error]
  | BucketNotFoundError => [NotFoundError]
  | BadBucketError => [APIError]
  | KeyValueError => [APIError]
  | KeyDeletedError => [KeyValueError; NotFoundError]
  | KeyNotFoundError => [KeyValueError; NotFoundError]
  | KeyWrongLastSequenceError => [KeyValueError; BadRequestError]
  | NoKeysError => [KeyValueError]
  | KeyHistoryTooLargeError => [KeyValueError]
  | InvalidBucketNameError => [Error]
  | InvalidObjectNameError => [Error]
  | BadObjectMetaError => [Error]
  | LinkIsABucketError => [Error]
  | DigestMismatchError => [Error]
  | ObjectNotFoundError => [NotFoundError]
  | ObjectDeletedError => [NotFoundError]
  | ObjectAlreadyExists => [Error]
  end.

(** ** Method resolution order (C3 linearisation) *)

Definition heads (seqs : list (list cls)) : list cls :=
  omap head seqs.

Definition in_a_tail (c : cls) (seqs : list (list cls)) : bool :=
  existsb (fun l => bool_decide (c ∈ tail l)) seqs.

(** The first head that occurs in the tail of no sequence. *)
Definition next_head (seqs : list (list cls)) : option cls :=
  List.find (fun c => negb (in_a_tail c seqs)) (heads seqs).

Definition drop_class (c : cls) (seqs : list (list cls)) : list (list cls) :=
  (fun l => List.filter (fun d => negb (bool_decide (d = c))) l) <$> seqs.

Definition nonempty (l : list cls) : bool :=
  match l with [] => false | _ => true end.

Fixpoint c3_merge (fuel : nat) (seqs : list (list cls)) : option (list cls) :=
  match List.filter nonempty seqs with
  | [] => Some []
  | live =>
      match fuel with
      | O => None
      | S fuel' =>
          match next_head live with
          | None => None
          | Some c => cons c <$> c3_merge fuel' (drop_class c live)
          end
      end
  end.

Fixpoint mro_fuel (fuel : nat) (c : cls) : option (list cls) :=
  match fuel with
  | O => None
  | S fuel' =>
      match mapM (mro_fuel fuel') (bases c) with
      | None => None
      | Some ls =>
          cons c <$> c3_merge (length all_classes) (ls ++ [bases c])
      end
  end.

(** [C.__mro__], restricted to the classes of the model. *)
Definition mro (c : cls) : list cls :=
  default [] (mro_fuel (length all_classes) c).

(** [issubclass(c, k)] *)
Definition issubclass (c k : cls) : bool := bool_decide (k ∈ mro c).

(** [k] is named as a base in the class statement of [c]. *)
Definition direct_base (c k : cls) : Prop := k ∈ bases c.

(** ** Objects, exceptions and results *)

(** An instance: its class and its [__dict__]. *)
Record obj : Type := Obj { ob_class : cls; ob_dict : gmap string pyval }.

(** What a call can raise: an instance of one of the module's classes,
    or one of the interpreter's own exceptions. *)
Inductive exn : Type :=
  | JsError (o : obj)
  | KeyError (key : string)
  | TypeError
  | ValueError
  | AttributeError (name : string).

Inductive pyres (A : Type) : Type :=
  | Ret (a : A)
  | Raise (e : exn).
Arguments Ret {A} a.
Arguments Raise {A} e.

#[global] Instance pyres_ret : MRet pyres := fun A a => Ret a.
#[global] Instance pyres_bind : MBind pyres := fun A B f r =>
  match r with
  | Ret a => f a
  | Raise e => Raise e
  end.

(** [raise e], where evaluating [e] may itself raise. *)
Definition raise_ {A} (r : pyres obj) : pyres A :=
  o ← r; Raise (JsError o).

(** [d[k]] on a dict *)
Definition subscript {V} (d : gmap string V) (k : string) : pyres V :=
  match d !! k with
  | Some v => Ret v
  | None => Raise (KeyError k)
  end.

(** [o.name]: the classes of the module hold no data attributes of their
    own (the annotations of [APIError] carry no defaults), so a data
    attribute is found in the instance or not at all. *)
Definition getattr (o : obj) (name : string) : pyres pyval :=
  match ob_dict o !! name with
  | Some v => Ret v
  | None => Raise (AttributeError name)
  end.

(** [o.name = v] *)
Definition setattr (o : obj) (name : string) (v : pyval) : obj :=
  Obj (ob_class o) (<[name := v]> (ob_dict o)).

(** [a - b] *)
Definition py_sub (a b : pyval) : pyres pyval :=
  match as_int a, as_int b with
  | Some x, Some y => Ret (PInt (x - y))
  | _, _ => Raise TypeError
  end.

(** [isinstance(o, k)] *)
Definition isinstance (o : obj) (k : cls) : bool := issubclass (ob_class o) k.

(** ** Calling a function whose parameters all default to [None] *)

(** Binds positional and keyword arguments to the parameter names:
    [TypeError] on too many positional arguments, on an unexpected
    keyword and on a parameter given twice. *)
Definition bind_args (params : list string) (args : list pyval)
    (kwargs : gmap string pyval) : pyres (gmap string pyval) :=
  let positional : gmap string pyval := list_to_map (zip params args) in
  let defaults : gmap string pyval := gset_to_gmap PNone (list_to_set params) in
  if decide (length args ≤ length params)%nat then
    if decide (map_Forall (λ k _, k ∈ params) kwargs) then
      if decide (kwargs ##ₘ positional) then
        Ret (kwargs ∪ positional ∪ defaults)
      else Raise TypeError
    else Raise TypeError
  else Raise TypeError.

(** What [bind_args] returns for a call with keywords only. *)
Definition bound_keywords (params : list string) (kwargs : gmap string pyval)
    : gmap string pyval :=
  kwargs ∪ ∅ ∪ gset_to_gmap PNone (list_to_set params).

(** ** The [__init__] methods *)

Record init_def : Type := InitDef {
  init_params : list string;
  init_body : obj → gmap string pyval → obj
}.

Definition Error_init (self : obj) (description : pyval) : obj :=
  setattr self "description" description.

Definition APIError_init (self : obj)
    (code description err_code stream seq : pyval) : obj :=
  let self := setattr self "code" code in
  let self := setattr self "err_code" err_code in
  let self := setattr self "description" description in
  let self := setattr self "stream" stream in
  setattr self "seq" seq.

Definition ConsumerSequenceMismatchError_init (self : obj)
    (stream_resume_sequence consumer_sequence last_consumer_sequence : pyval)
    : obj :=
  let self := setattr self "stream_resume_sequence" stream_resume_sequence in
  let self := setattr self "consumer_sequence" consumer_sequence in
  setattr self "last_consumer_sequence" last_consumer_sequence.

Definition KeyDeletedError_init (self : obj) (entry op : pyval) : obj :=
  let self := setattr self "entry" entry in
  setattr self "op" op.

Definition KeyNotFoundError_init (self : obj) (entry op message : pyval) : obj :=
  let self := setattr self "entry" entry in
  let self := setattr self "op" op in
  setattr self "message" message.

Definition KeyWrongLastSequenceError_init (self : obj) (description : pyval) : obj :=
  setattr self "description" description.

(** The parameters of [APIError.__init__], which are the fields of the
    class. *)
Definition api_error_fields : list string :=
  ["code"; "description"; "err_code"; "stream"; "seq"].

(** The [__init__] a class statement defines itself, if any. *)
Definition own_init (c : cls) : option init_def :=
  match c with
  | Error =>
      Some (InitDef ["description"]
              (fun self a => Error_init self (a !!! "description")))
  | APIError =>
      Some (InitDef api_error_fields
              (fun self a =>
                 APIError_init self (a !!! "code") (a !!! "description")
                   (a !!! "err_code") (a !!! "stream") (a !!! "seq")))
  | ConsumerSequenceMismatchError =>
      Some (InitDef ["stream_resume_sequence"; "consumer_sequence";
                     "last_consumer_sequence"]
              (fun self a =>
                 ConsumerSequenceMismatchError_init self
                   (a !!! "stream_resume_sequence") (a !!! "consumer_sequence")
                   (a !!! "last_consumer_sequence")))
  | KeyDeletedError =>
      Some (InitDef ["entry"; "op"]
              (fun self a => KeyDeletedError_init self (a !!! "entry") (a !!! "op")))
  | KeyNotFoundError =>
      Some (InitDef ["entry"; "op"; "message"]
              (fun self a =>
                 KeyNotFoundError_init self (a !!! "entry") (a !!! "op")
                   (a !!! "message")))
  | KeyWrongLastSequenceError =>
      Some (InitDef ["description"]
              (fun self a =>
                 KeyWrongLastSequenceError_init self (a !!! "description")))
  | _ => None
  end.

(** Method lookup: the first class of the MRO that defines the method,
    and the method found there. *)
Definition definer {M} (own : cls → option M) (c : cls) : option cls :=
  List.find (λ k, bool_decide (is_Some (own k))) (mro c).

Definition resolve {M} (own : cls → option M) (c : cls) : option M :=
  definer own c ≫= own.

(** The call of class [c] on positional and keyword arguments.  A class that finds no [__init__] in this file
    inherits the one of the builtin exceptions, which takes positional
    arguments only and stores no attribute. *)
Definition construct (c : cls) (args : list pyval)
    (kwargs : gmap string pyval) : pyres obj :=
  match resolve own_init c with
  | Some d =>
      a ← bind_args (init_params d) args kwargs;
      Ret (init_body d (Obj c ∅) a)
  | None =>
      if decide (kwargs = ∅) then Ret (Obj c ∅) else Raise TypeError
  end.

(** ** The [__str__] methods *)

Definition Error_str (self : obj) : pyres string :=
  let desc := PStr "" in
  description ← getattr self "description";
  let desc := if truthy description then description else desc in
  Ret ("nats: JetStream." +:+ cls_name (ob_class self) +:+ " " +:+ py_str desc).

Definition APIError_str (self : obj) : pyres string :=
  code ← getattr self "code";
  err_code ← getattr self "err_code";
  description ← getattr self "description";
  Ret ("nats: " +:+ cls_name (ob_class self) +:+ ": code=" +:+ py_str code
       +:+ " err_code=" +:+ py_str err_code +:+ " "
       +:+ "description='" +:+ py_str description +:+ "'").

Definition NoStreamResponseError_str (self : obj) : pyres string :=
  Ret "nats: no response from stream".

Definition TooManyStalledMsgsError_str (self : obj) : pyres string :=
  Ret "nats: stalled with too many outstanding async published messages".

Definition FetchTimeoutError_str (self : obj) : pyres string :=
  Ret "nats: fetch timeout".

Definition ConsumerSequenceMismatchError_str (self : obj) : pyres string :=
  last_consumer_sequence ← getattr self "last_consumer_sequence";
  consumer_sequence ← getattr self "consumer_sequence";
  gap ← py_sub last_consumer_sequence consumer_sequence;
  stream_resume_sequence ← getattr self "stream_resume_sequence";
  Ret ("nats: sequence mismatch for consumer at sequence "
       +:+ py_str consumer_sequence +:+ " "
       +:+ "(" +:+ py_str gap
       +:+ " sequences behind), should restart consumer from stream sequence "
       +:+ py_str stream_resume_sequence).

Definition KeyDeletedError_str (self : obj) : pyres string :=
  Ret "nats: key was deleted".

Definition KeyNotFoundError_str (self : obj) : pyres string :=
  let s := "nats: key not found" in
  message ← getattr self "message";
  let s := if truthy message then s +:+ ": " +:+ py_str message else s in
  Ret s.

Definition KeyWrongLastSequenceError_str (self : obj) : pyres string :=
  description ← getattr self "description";
  Ret ("nats: " +:+ py_str description).

Definition NoKeysError_str (self : obj) : pyres string :=
  Ret "nats: no keys found".

Definition KeyHistoryTooLargeError_str (self : obj) : pyres string :=
  Ret "nats: history limited to a max of 64".

(** The [__str__] a class statement defines itself, if any. *)
Definition own_str (c : cls) : option (obj → pyres string) :=
  match c with
  | Error => Some Error_str
  | APIError => Some APIError_str
  | NoStreamResponseError => Some NoStreamResponseError_str
  | TooManyStalledMsgsError => Some TooManyStalledMsgsError_str
  | FetchTimeoutError => Some FetchTimeoutError_str
  | ConsumerSequenceMismatchError => Some ConsumerSequenceMismatchError_str
  | KeyDeletedError => Some KeyDeletedError_str
  | KeyNotFoundError => Some KeyNotFoundError_str
  | KeyWrongLastSequenceError => Some KeyWrongLastSequenceError_str
  | NoKeysError => Some NoKeysError_str
  | KeyHistoryTooLargeError => Some KeyHistoryTooLargeError_str
  | _ => None
  end.

(** [str(o)]: [None] when the method in charge lies outside this file,
    which is the case for direct instances of the two [nats.errors]
    classes only. *)
Definition str_ (o : obj) : option (pyres string) :=
  (fun m => m o) <$> resolve own_str (ob_class o).

(** ** The classifying class methods of [APIError] *)

(** Modelled from the spec: the constants of [nats.js.api] that
    [from_msg] reads, which are the name of the status entry, the name of
    the description entry and the text of the service-unavailable status
    code.  The module [nats.js.api] is not among the sources. *)
Record api_module : Type := Api {
  Header_STATUS : string;
  Header_DESCRIPTION : string;
  StatusCode_SERVICE_UNAVAILABLE : string
}.

(** Modelled from the spec: the reply message of [nats.aio.msg], of which
    [from_msg] reads the headers only: a mapping from header names to
    values, or no headers at all. *)
Record Msg : Type := { header : option (gmap string string) }.

(** [int(code)] on header text.  The conversion of text to an integer
    belongs to the interpreter, not to the module, so it is the
    parameter [int_text]: it gives the integer, or [None] where [int()]
    raises [ValueError]. *)
Definition int_ (int_text : string → option Z) (s : string) : pyres Z :=
  match int_text s with
  | Some n => Ret n
  | None => Raise ValueError
  end.

Definition from_msg (api : api_module) (int_text : string → option Z)
    (cls_ : cls) (msg : Msg) : pyres Empty_set :=
  match header msg with
  | None => raise_ (construct APIError [] ∅)
  | Some hdr =>
      code ← subscript hdr (Header_STATUS api);
      if String.eqb code (StatusCode_SERVICE_UNAVAILABLE api) then
        raise_ (construct ServiceUnavailableError [] ∅)
      else
        desc ← subscript hdr (Header_DESCRIPTION api);
        n ← int_ int_text code;
        raise_ (construct APIError []
                  {[ "code" := PInt n; "description" := PStr desc ]})
  end.

Definition from_error (cls_ : cls) (err : gmap string pyval) : pyres pyval :=
  code ← subscript err "code";
  if py_eq code (PInt 503) then
    raise_ (construct ServiceUnavailableError [] err)
  else if py_eq code (PInt 500) then
    raise_ (construct ServerError [] err)
  else if py_eq code (PInt 404) then
    raise_ (construct NotFoundError [] err)
  else if py_eq code (PInt 400) then
    raise_ (construct BadRequestError [] err)
  else
    raise_ (construct APIError [] err).

(** An instance of the three constants, with the header names and the
    status text of the NATS protocol; the concrete examples use it. *)
Definition nats_js_api : api_module :=
  Api "Status" "Description" "503".

(** The class that the chain of comparisons in [from_error] selects for
    a value of [code]. *)
Definition status_kind (code : pyval) : cls :=
  if py_eq code (PInt 503) then ServiceUnavailableError
  else if py_eq code (PInt 500) then ServerError
  else if py_eq code (PInt 404) then NotFoundError
  else if py_eq code (PInt 400) then BadRequestError
  else APIError.

(** * Properties *)

(** ** The builtins on sample inputs *)

Example py_int_404 : py_int "404" = Some 404.
Proof. reflexivity. Qed.
Example py_int_spaces : py_int " -1_000 " = Some (-1000).
Proof. reflexivity. Qed.
Example py_int_bad : py_int "4_" = None /\ py_int "" = None /\ py_int "4x" = None.
Proof. repeat split. Qed.
Example py_int_control_character :
  py_int (String (Ascii.ascii_of_nat 28) "404") = None.
Proof. reflexivity. Qed.
Example str_of_int_ex : str_of_int 0 = "0" /\ str_of_int 318 = "318" /\ str_of_int (-64) = "-64".
Proof. repeat split. Qed.

(** ** The class hierarchy *)

Example mro_KeyDeletedError :
  mro KeyDeletedError =
  [KeyDeletedError; KeyValueError; NotFoundError; APIError; Error; nats_errors_Error].
Proof. reflexivity. Qed.

(** The linearisation never runs out of fuel. *)
Lemma mro_fuel_enough (c : cls) :
  mro_fuel (length all_classes) c = Some (mro c) ∧ head (mro c) = Some c.
Proof. destruct c; split; reflexivity. Qed.

Lemma all_classes_complete (c : cls) : c ∈ all_classes.
Proof. destruct c; unfold all_classes; set_solver. Qed.

(** Replaces [mro c], for a class [c] given by name, by its value. *)
Ltac compute_mro :=
  repeat match goal with
  | |- context [mro ?x] =>
      let l := eval vm_compute in (mro x) in change (mro x) with l
  | H : context [mro ?x] |- _ =>
      let l := eval vm_compute in (mro x) in change (mro x) with l in H
  end.

(** Splits a membership in a list given by its elements into cases. *)
Ltac elem_cases H :=
  repeat (apply elem_of_cons in H as [->|H]);
  try (by apply elem_of_nil in H).

(** Searches a chain of class statements from one named class up to
    another, trying the bases of each statement in turn. *)
Ltac base_step :=
  unfold direct_base; cbn [bases nats_errors_bases];
  (apply list_elem_of_here
   + (apply list_elem_of_further; apply list_elem_of_here)).

Ltac base_chain n :=
  lazymatch n with
  | O => fail
  | S ?m => apply rtc_refl + (eapply rtc_l; [base_step|]; base_chain m)
  end.

(** [issubclass] is the reflexive and transitive closure of the bases
    written in the class statements. *)
Lemma mro_closed_under_bases (c b k : cls) :
  b ∈ bases c → k ∈ mro b → k ∈ mro c.
Proof.
  intros Hb Hk.
  destruct c; cbn in Hb; elem_cases Hb; compute_mro; elem_cases Hk;
    repeat constructor.
Qed.

Lemma issubclass_rtc (c k : cls) :
  issubclass c k = true ↔ rtc direct_base c k.
Proof.
  unfold issubclass. rewrite bool_decide_eq_true. split.
  - intros Hk. destruct c; compute_mro; elem_cases Hk; solve [base_chain 6%nat].
  - induction 1 as [c|c b k Hb _ IH].
    + destruct c; compute_mro; repeat constructor.
    + by eapply mro_closed_under_bases.
Qed.

(** Every class of the file finds its [__str__] in the file. *)
Lemma resolve_own_str_file (c : cls) :
  c ≠ nats_errors_Error → c ≠ nats_errors_TimeoutError →
  is_Some (resolve own_str c).
Proof. destruct c; intros; try done; eexists; reflexivity. Qed.

(** ** Argument binding *)

Lemma bind_args_keywords (params : list string) (kwargs : gmap string pyval) :
  map_Forall (λ k _, k ∈ params) kwargs →
  bind_args params [] kwargs = Ret (bound_keywords params kwargs).
Proof.
  intros Hkw. unfold bind_args, bound_keywords.
  replace (zip params (@nil pyval)) with (@nil (string * pyval))
    by (by destruct params).
  cbn [list_to_map foldr].
  destruct (decide _) as [_|Hlen]; [|cbn in Hlen; lia].
  destruct (decide _) as [_|]; [|done].
  destruct (decide _) as [_|Hdis]; [done|].
  destruct Hdis. apply map_disjoint_empty_r.
Qed.

Lemma bound_keywords_lookup_total params (kwargs : gmap string pyval) k :
  bound_keywords params kwargs !!! k = default PNone (kwargs !! k).
Proof.
  unfold bound_keywords. rewrite lookup_total_alt, (right_id_L ∅ (∪)).
  destruct (kwargs !! k) as [v|] eqn:Hk.
  - by erewrite lookup_union_Some_l.
  - rewrite lookup_union_r by done. rewrite lookup_gset_to_gmap.
    by case_guard.
Qed.

Lemma construct_keywords c d (kwargs : gmap string pyval) :
  resolve own_init c = Some d →
  map_Forall (λ k _, k ∈ init_params d) kwargs →
  construct c [] kwargs =
    Ret (init_body d (Obj c ∅) (bound_keywords (init_params d) kwargs)).
Proof.
  intros Hd Hkw. unfold construct. rewrite Hd.
  by rewrite bind_args_keywords.
Qed.

(** Binding of a call with positional arguments only. *)
Lemma bind_args_positional params args :
  (length args ≤ length params)%nat →
  bind_args params args ∅ =
    Ret (list_to_map (zip params args)
         ∪ gset_to_gmap PNone (list_to_set params)).
Proof.
  intros Hlen. unfold bind_args.
  destruct (decide (length args ≤ length params)%nat); [|done].
  destruct (decide (map_Forall (λ k _, k ∈ params) (∅ : gmap string pyval)))
    as [_|Hn]; [|by destruct Hn; apply map_Forall_empty].
  destruct (decide ((∅ : gmap string pyval) ##ₘ list_to_map (zip params args)))
    as [_|Hn]; [|by destruct Hn; apply map_disjoint_empty_l].
  by rewrite (left_id_L ∅ (∪)).
Qed.

Lemma getattr_setattr_eq (o : obj) (k : string) (v : pyval) :
  getattr (setattr o k v) k = Ret v.
Proof. unfold getattr, setattr. cbn [ob_dict]. by rewrite lookup_insert_eq. Qed.

Lemma getattr_setattr_ne (o : obj) (k k' : string) (v : pyval) :
  k ≠ k' → getattr (setattr o k v) k' = getattr o k'.
Proof.
  intros Hne. unfold getattr, setattr. cbn [ob_dict].
  by rewrite lookup_insert_ne.
Qed.

Lemma getattr_fresh (c : cls) (k : string) :
  getattr (Obj c ∅) k = Raise (AttributeError k).
Proof. unfold getattr. cbn [ob_dict]. by rewrite lookup_empty. Qed.

(** Rewrites the reads of attributes that [__init__] has just set. *)
Ltac read_attrs :=
  repeat first
    [ rewrite getattr_setattr_eq
    | rewrite getattr_setattr_ne by discriminate
    | rewrite getattr_fresh ].

(** ** [APIError.__init__] and the objects it builds *)

Lemma APIError_init_getattr self code description err_code stream seq k :
  k ∈ api_error_fields →
  getattr (APIError_init self code description err_code stream seq) k =
    Ret (default PNone
           (({[ "code" := code; "description" := description;
                "err_code" := err_code; "stream" := stream;
                "seq" := seq ]} : gmap string pyval) !! k)).
Proof.
  unfold api_error_fields. rewrite !elem_of_cons, elem_of_nil.
  unfold getattr, APIError_init, setattr. cbn [ob_dict].
  intros [->|[->|[->|[->|[->|[]]]]]]; by simplify_map_eq.
Qed.

(** The classes that take [__init__] from [APIError]. *)
Lemma resolve_own_init_family c :
  c ∈ [APIError; ServiceUnavailableError; ServerError; NotFoundError;
       BadRequestError] →
  resolve own_init c = own_init APIError.
Proof.
  rewrite !elem_of_cons, elem_of_nil.
  intros [->|[->|[->|[->|[->|[]]]]]]; reflexivity.
Qed.

(** Keyword construction of a class of the family: every field holds the
    keyword's value, [None] where the keyword is missing. *)
Lemma construct_family_keywords c (err : gmap string pyval) :
  c ∈ [APIError; ServiceUnavailableError; ServerError; NotFoundError;
       BadRequestError] →
  map_Forall (λ k _, k ∈ api_error_fields) err →
  ∃ o, construct c [] err = Ret o ∧ ob_class o = c ∧
       ∀ k, k ∈ api_error_fields →
            getattr o k = Ret (default PNone (err !! k)).
Proof.
  intros Hc Hkw. eexists. split; [|split].
  - apply construct_keywords; [by apply resolve_own_init_family|done].
  - reflexivity.
  - intros k Hk. cbn [init_body init_params].
    rewrite !bound_keywords_lookup_total.
    rewrite APIError_init_getattr by done. f_equal.
    revert Hk. unfold api_error_fields. rewrite !elem_of_cons, elem_of_nil.
    intros [->|[->|[->|[->|[->|[]]]]]]; reflexivity.
Qed.

(** ** [APIError.from_error] *)

(** C1.  A structured error that holds an integer [code] and no key
    beyond [code], [err_code], [description], [stream] and [seq] makes
    [from_error] raise a [ServiceUnavailableError] for code 503, a
    [ServerError] for 500, a [NotFoundError] for 404, a [BadRequestError]
    for 400 and a plain [APIError] for any other code.  Each field of the
    raised error holds the value the mapping supplies for it, and [None]
    when the mapping omits it. *)
Theorem from_error_classifies (cls_ : cls) (err : gmap string pyval) (c : Z) :
  err !! "code" = Some (PInt c) →
  map_Forall (λ k _, k ∈ api_error_fields) err →
  ∃ o, from_error cls_ err = Raise (JsError o) ∧
       (c = 503 → ob_class o = ServiceUnavailableError) ∧
       (c = 500 → ob_class o = ServerError) ∧
       (c = 404 → ob_class o = NotFoundError) ∧
       (c = 400 → ob_class o = BadRequestError) ∧
       (c ≠ 503 → c ≠ 500 → c ≠ 404 → c ≠ 400 → ob_class o = APIError) ∧
       (∀ k v, err !! k = Some v → getattr o k = Ret v) ∧
       (∀ k, k ∈ api_error_fields → err !! k = None → getattr o k = Ret PNone).
Proof.
  intros Hcode Hkeys.
  assert (Hfam : ∀ k,
    k ∈ [APIError; ServiceUnavailableError; ServerError; NotFoundError;
         BadRequestError] →
    ∃ o, raise_ (A:=pyval) (construct k [] err) = Raise (JsError o) ∧
         ob_class o = k ∧
         (∀ f v, err !! f = Some v → getattr o f = Ret v) ∧
         (∀ f, f ∈ api_error_fields → err !! f = None → getattr o f = Ret PNone)).
  { intros k Hk.
    destruct (construct_family_keywords k err Hk Hkeys) as (o & Ho & Hcls & Hget).
    exists o. unfold raise_. rewrite Ho. repeat split; [done|..].
    - intros f v Hf. rewrite (Hget f) by (by eapply Hkeys). by rewrite Hf.
    - intros f Hin Hf. rewrite (Hget f Hin). by rewrite Hf. }
  unfold from_error, subscript. rewrite Hcode. cbn [mbind pyres_bind].
  unfold py_eq. cbn [as_int].
  destruct (Z.eqb_spec c 503) as [->|N503].
  { destruct (Hfam ServiceUnavailableError) as (o & -> & Hcls & Hsup & Hom);
      [repeat constructor|]. exists o. repeat split; (done || lia). }
  destruct (Z.eqb_spec c 500) as [->|N500].
  { destruct (Hfam ServerError) as (o & -> & Hcls & Hsup & Hom);
      [repeat constructor|]. exists o. repeat split; (done || lia). }
  destruct (Z.eqb_spec c 404) as [->|N404].
  { destruct (Hfam NotFoundError) as (o & -> & Hcls & Hsup & Hom);
      [repeat constructor|]. exists o. repeat split; (done || lia). }
  destruct (Z.eqb_spec c 400) as [->|N400].
  { destruct (Hfam BadRequestError) as (o & -> & Hcls & Hsup & Hom);
      [repeat constructor|]. exists o. repeat split; (done || lia). }
  destruct (Hfam APIError) as (o & -> & Hcls & Hsup & Hom); [repeat constructor|].
  exists o. repeat split; (done || lia).
Qed.

Lemma from_error_classifies_witness :
  let err : gmap string pyval :=
    {[ "code" := PInt 404; "err_code" := PInt 10014;
       "description" := PStr "consumer not found" ]} in
  err !! "code" = Some (PInt 404) ∧
  map_Forall (λ k _, k ∈ api_error_fields) err ∧
  ∃ o, from_error APIError
         {[ "code" := PInt 404; "err_code" := PInt 10014;
            "description" := PStr "consumer not found" ]}
       = Raise (JsError o) ∧
       ob_class o = NotFoundError ∧
       getattr o "code" = Ret (PInt 404) ∧
       getattr o "err_code" = Ret (PInt 10014) ∧
       getattr o "description" = Ret (PStr "consumer not found") ∧
       getattr o "stream" = Ret PNone ∧
       getattr o "seq" = Ret PNone.
Proof.
  intros err.
  assert (Hcode : err !! "code" = Some (PInt 404)) by reflexivity.
  assert (Hkeys : map_Forall (λ k _, k ∈ api_error_fields) err)
    by compute_done.
  split; [exact Hcode|]. split; [exact Hkeys|].
  destruct (from_error_classifies APIError err 404 Hcode Hkeys)
    as (o & Hraise & _ & _ & H404 & _ & _ & Hsup & Hom).
  exists o. split; [exact Hraise|]. split; [exact (H404 eq_refl)|].
  split; [apply Hsup; reflexivity|].
  split; [apply Hsup; reflexivity|].
  split; [apply Hsup; reflexivity|].
  split; apply Hom; (reflexivity || compute_done).
Defined.

(** [from_error] never returns: whatever the mapping, it raises. *)
Lemma from_error_raises (cls_ : cls) (err : gmap string pyval) :
  ∃ e, from_error cls_ err = Raise e.
Proof.
  unfold from_error, subscript, raise_.
  destruct (err !! "code") as [code|]; cbn [mbind pyres_bind]; [|by eexists].
  repeat case_match;
    match goal with
    | |- context [construct ?k ?a ?kw] => destruct (construct k a kw)
    end; by eexists.
Qed.

(** ** [APIError.from_msg] *)

(** [from_msg] never returns, as its annotation [NoReturn] announces. *)
Lemma from_msg_raises (api : api_module) (int_text : string → option Z)
    (cls_ : cls) (msg : Msg) :
  ∃ e, from_msg api int_text cls_ msg = Raise e.
Proof. destruct (from_msg api int_text cls_ msg) as [[]|e]. by exists e. Qed.

Lemma construct_family_no_arguments c :
  c ∈ [APIError; ServiceUnavailableError; ServerError; NotFoundError;
       BadRequestError] →
  ∃ o, construct c [] ∅ = Ret o ∧ ob_class o = c ∧
       ∀ k, k ∈ api_error_fields → getattr o k = Ret PNone.
Proof.
  intros Hc.
  destruct (construct_family_keywords c ∅ Hc (map_Forall_empty _))
    as (o & Ho & Hcls & Hget).
  exists o. split; [done|]. split; [done|].
  intros k Hk. by rewrite (Hget k Hk), lookup_empty.
Qed.

(** C3.  On a message without headers [from_msg] raises a plain
    [APIError] whose [code], [err_code], [description], [stream] and [seq]
    are all [None]. *)
Theorem from_msg_no_headers (api : api_module) (int_text : string → option Z)
    (cls_ : cls) :
  ∃ o, from_msg api int_text cls_ {| header := None |} = Raise (JsError o) ∧
       ob_class o = APIError ∧
       getattr o "code" = Ret PNone ∧
       getattr o "err_code" = Ret PNone ∧
       getattr o "description" = Ret PNone ∧
       getattr o "stream" = Ret PNone ∧
       getattr o "seq" = Ret PNone.
Proof.
  destruct (construct_family_no_arguments APIError) as (o & Ho & Hcls & Hget);
    [repeat constructor|].
  exists o. unfold from_msg, raise_. cbn [header]. rewrite Ho.
  repeat split; try done; apply Hget; repeat constructor.
Qed.

(** C4.  When the status entry of the headers equals the
    service-unavailable status code, [from_msg] raises a
    [ServiceUnavailableError] with all five fields [None], whatever the
    headers hold besides, a description entry included. *)
Theorem from_msg_service_unavailable (api : api_module) (int_text : string → option Z)
    (cls_ : cls)
    (msg : Msg) (hdr : gmap string string) :
  header msg = Some hdr →
  hdr !! Header_STATUS api = Some (StatusCode_SERVICE_UNAVAILABLE api) →
  ∃ o, from_msg api int_text cls_ msg = Raise (JsError o) ∧
       ob_class o = ServiceUnavailableError ∧
       getattr o "code" = Ret PNone ∧
       getattr o "err_code" = Ret PNone ∧
       getattr o "description" = Ret PNone ∧
       getattr o "stream" = Ret PNone ∧
       getattr o "seq" = Ret PNone.
Proof.
  intros Hhdr Hstatus.
  destruct (construct_family_no_arguments ServiceUnavailableError)
    as (o & Ho & Hcls & Hget); [repeat constructor|].
  exists o. unfold from_msg, raise_, subscript. rewrite Hhdr, Hstatus.
  cbn [mbind pyres_bind]. rewrite String.eqb_refl, Ho.
  repeat split; try done; apply Hget; repeat constructor.
Qed.

Lemma from_msg_service_unavailable_witness :
  let hdr : gmap string string :=
    {[ "Status" := "503"; "Description" := "No Responders" ]} in
  let msg := {| header := Some hdr |} in
  header msg = Some hdr ∧
  hdr !! Header_STATUS nats_js_api =
    Some (StatusCode_SERVICE_UNAVAILABLE nats_js_api) ∧
  ∃ o, from_msg nats_js_api py_int APIError msg = Raise (JsError o) ∧
       ob_class o = ServiceUnavailableError ∧
       getattr o "description" = Ret PNone.
Proof.
  intros hdr msg.
  assert (H1 : header msg = Some hdr) by reflexivity.
  assert (H2 : hdr !! Header_STATUS nats_js_api =
               Some (StatusCode_SERVICE_UNAVAILABLE nats_js_api))
    by reflexivity.
  split; [exact H1|]. split; [exact H2|].
  destruct (from_msg_service_unavailable nats_js_api py_int APIError msg hdr H1 H2)
    as (o & Hraise & Hcls & _ & _ & Hdesc & _).
  exists o. split; [exact Hraise|]. split; [exact Hcls|exact Hdesc].
Defined.

(** A header mapping that has a status entry other than the
    service-unavailable code and no description entry: the lookup of the
    description fails before any error of the module is built. *)
Lemma from_msg_description_absent (api : api_module) (int_text : string → option Z)
    (cls_ : cls)
    (msg : Msg) (hdr : gmap string string) (status : string) :
  header msg = Some hdr →
  hdr !! Header_STATUS api = Some status →
  status ≠ StatusCode_SERVICE_UNAVAILABLE api →
  hdr !! Header_DESCRIPTION api = None →
  from_msg api int_text cls_ msg = Raise (KeyError (Header_DESCRIPTION api)).
Proof.
  intros Hhdr Hstatus Hne Hdesc. unfold from_msg, subscript.
  rewrite Hhdr, Hstatus. cbn [mbind pyres_bind].
  apply String.eqb_neq in Hne. by rewrite Hne, Hdesc.
Qed.

(** C2, as stated, fails: with a status entry ["404"] and no description
    entry, [from_msg] raises [KeyError] and delivers no [APIError] with
    an unset description. *)
Lemma from_msg_description_absent_counterexample :
  let msg := {| header := Some {[ "Status" := "404" ]} |} in
  from_msg nats_js_api py_int APIError msg = Raise (KeyError "Description") ∧
  ¬ ∃ o, from_msg nats_js_api py_int APIError msg = Raise (JsError o) ∧
         ob_class o = APIError ∧
         getattr o "code" = Ret (PInt 404) ∧
         getattr o "description" = Ret PNone.
Proof.
  intros msg.
  assert (H : from_msg nats_js_api py_int APIError msg = Raise (KeyError "Description"))
    by reflexivity.
  split; [exact H|]. intros (o & Ho & _). rewrite H in Ho. discriminate Ho.
Qed.

(** C2, amended.  When the headers hold a status entry that differs from
    the service-unavailable code and that [int()] turns into an integer
    [n], and a description entry, [from_msg] raises a plain [APIError]
    whose [code] is [n] and whose [description] is the description entry;
    [err_code], [stream] and [seq] are [None].  This holds whatever text
    [int()] accepts: the conversion is the parameter [int_text]. *)
Theorem from_msg_other_status (api : api_module) (int_text : string → option Z)
    (cls_ : cls) (msg : Msg)
    (hdr : gmap string string) (status desc : string) (n : Z) :
  header msg = Some hdr →
  hdr !! Header_STATUS api = Some status →
  status ≠ StatusCode_SERVICE_UNAVAILABLE api →
  hdr !! Header_DESCRIPTION api = Some desc →
  int_text status = Some n →
  ∃ o, from_msg api int_text cls_ msg = Raise (JsError o) ∧
       ob_class o = APIError ∧
       getattr o "code" = Ret (PInt n) ∧
       getattr o "description" = Ret (PStr desc) ∧
       getattr o "err_code" = Ret PNone ∧
       getattr o "stream" = Ret PNone ∧
       getattr o "seq" = Ret PNone.
Proof.
  intros Hhdr Hstatus Hne Hdesc Hint.
  set (kw := ({[ "code" := PInt n; "description" := PStr desc ]}
              : gmap string pyval)).
  assert (Hkw : map_Forall (λ k _, k ∈ api_error_fields) kw).
  { intros k v [[<- _]|[_ [<- _]%lookup_singleton_Some]]%lookup_insert_Some;
      repeat constructor. }
  destruct (construct_family_keywords APIError kw) as (o & Ho & Hcls & Hget);
    [repeat constructor|done|].
  exists o. unfold from_msg, subscript, int_, raise_.
  rewrite Hhdr, Hstatus. cbn [mbind pyres_bind].
  apply String.eqb_neq in Hne. rewrite Hne, Hdesc, Hint.
  cbn [mbind pyres_bind]. fold kw. rewrite Ho.
  split; [reflexivity|]. split; [exact Hcls|].
  rewrite !Hget by repeat constructor. subst kw.
  repeat split; by simplify_map_eq.
Qed.

Lemma from_msg_other_status_witness :
  let hdr : gmap string string :=
    {[ "Status" := "404"; "Description" := "No Messages" ]} in
  let msg := {| header := Some hdr |} in
  header msg = Some hdr ∧
  hdr !! Header_STATUS nats_js_api = Some "404" ∧
  "404" ≠ StatusCode_SERVICE_UNAVAILABLE nats_js_api ∧
  hdr !! Header_DESCRIPTION nats_js_api = Some "No Messages" ∧
  py_int "404" = Some 404 ∧
  ∃ o, from_msg nats_js_api py_int APIError msg = Raise (JsError o) ∧
       ob_class o = APIError ∧
       getattr o "code" = Ret (PInt 404) ∧
       getattr o "description" = Ret (PStr "No Messages").
Proof.
  intros hdr msg.
  assert (H1 : header msg = Some hdr) by reflexivity.
  assert (H2 : hdr !! Header_STATUS nats_js_api = Some "404") by reflexivity.
  assert (H3 : "404" ≠ StatusCode_SERVICE_UNAVAILABLE nats_js_api)
    by discriminate.
  assert (H4 : hdr !! Header_DESCRIPTION nats_js_api = Some "No Messages")
    by reflexivity.
  assert (H5 : py_int "404" = Some 404) by reflexivity.
  repeat (split; [assumption|]).
  destruct (from_msg_other_status nats_js_api py_int APIError msg hdr
              "404" "No Messages" 404 H1 H2 H3 H4 H5)
    as (o & Hraise & Hcls & Hc & Hd & _).
  exists o. repeat (split; [assumption|]). exact Hd.
Defined.

(** ** Rendering *)

(** [str(o)] runs the method that the class of [o] resolves to. *)
Lemma str_by_class (o : obj) (c : cls) (m : obj → pyres string) :
  ob_class o = c → resolve own_str c = Some m → str_ o = Some (m o).
Proof. intros <- Hm. unfold str_. by rewrite Hm. Qed.

(** The classes that take [__str__] from [APIError] among the five of
    the registry. *)
Lemma resolve_own_str_family c :
  c ∈ [APIError; ServiceUnavailableError; ServerError; NotFoundError;
       BadRequestError] →
  resolve own_str c = Some APIError_str.
Proof.
  rewrite !elem_of_cons, elem_of_nil.
  intros [->|[->|[->|[->|[->|[]]]]]]; reflexivity.
Qed.

(** C5.  An [APIError], [ServiceUnavailableError], [ServerError],
    [NotFoundError] or [BadRequestError] whose [code], [err_code] and
    [description] hold [c], [ec] and [d] renders as
    [nats: <KindName>: code=<c> err_code=<ec> description='<d>'].  A field
    that is [None] renders as the text [None] in its slot, so all three
    slots are always there. *)
Theorem APIError_family_str (o : obj) (c ec d : pyval) :
  ob_class o ∈ [APIError; ServiceUnavailableError; ServerError;
                NotFoundError; BadRequestError] →
  getattr o "code" = Ret c →
  getattr o "err_code" = Ret ec →
  getattr o "description" = Ret d →
  str_ o = Some (Ret ("nats: " +:+ cls_name (ob_class o) +:+ ": code="
                      +:+ py_str c +:+ " err_code=" +:+ py_str ec
                      +:+ " description='" +:+ py_str d +:+ "'")) ∧
  py_str PNone = "None" ∧
  (c = PNone → ec = PNone → d = PNone →
   str_ o = Some (Ret ("nats: " +:+ cls_name (ob_class o)
                       +:+ ": code=None err_code=None description='None'"))).
Proof.
  intros Hcls Hc Hec Hd.
  assert (Hstr : str_ o =
    Some (Ret ("nats: " +:+ cls_name (ob_class o) +:+ ": code="
               +:+ py_str c +:+ " err_code=" +:+ py_str ec
               +:+ " description='" +:+ py_str d +:+ "'"))).
  { rewrite (str_by_class o _ APIError_str eq_refl)
      by (by apply resolve_own_str_family).
    unfold APIError_str. rewrite Hc, Hec, Hd. reflexivity. }
  split; [exact Hstr|]. split; [reflexivity|].
  intros -> -> ->. exact Hstr.
Qed.

Lemma APIError_family_str_witness :
  let o := Obj ServerError
             {[ "code" := PInt 500; "err_code" := PNone;
                "description" := PStr "insufficient resources";
                "stream" := PNone; "seq" := PNone ]} in
  ob_class o ∈ [APIError; ServiceUnavailableError; ServerError;
                NotFoundError; BadRequestError] ∧
  getattr o "code" = Ret (PInt 500) ∧
  getattr o "err_code" = Ret PNone ∧
  getattr o "description" = Ret (PStr "insufficient resources") ∧
  str_ o = Some (Ret "nats: ServerError: code=500 err_code=None description='insufficient resources'").
Proof.
  intros o.
  assert (H1 : ob_class o ∈ [APIError; ServiceUnavailableError; ServerError;
                             NotFoundError; BadRequestError]) by compute_done.
  assert (H2 : getattr o "code" = Ret (PInt 500)) by reflexivity.
  assert (H3 : getattr o "err_code" = Ret PNone) by reflexivity.
  assert (H4 : getattr o "description" = Ret (PStr "insufficient resources"))
    by reflexivity.
  repeat (split; [assumption|]).
  exact (proj1 (APIError_family_str o _ _ _ H1 H2 H3 H4)).
Defined.




(** ** Capabilities *)

(** C7.  Every [KeyDeletedError] and every [KeyNotFoundError] is an
    instance of [KeyValueError] and of [NotFoundError]; the
    [NotFoundError] check succeeds for every [KeyNotFoundError],
    [KeyDeletedError], [BucketNotFoundError], [ObjectNotFoundError],
    [ObjectDeletedError] and [NotFoundError]. *)
Theorem not_found_capabilities (d : gmap string pyval) :
  isinstance (Obj KeyDeletedError d) KeyValueError = true ∧
  isinstance (Obj KeyDeletedError d) NotFoundError = true ∧
  isinstance (Obj KeyNotFoundError d) KeyValueError = true ∧
  isinstance (Obj KeyNotFoundError d) NotFoundError = true ∧
  Forall (λ c, isinstance (Obj c d) NotFoundError = true)
    [KeyNotFoundError; KeyDeletedError; BucketNotFoundError;
     ObjectNotFoundError; ObjectDeletedError; NotFoundError].
Proof.
  repeat split; repeat (apply Forall_cons; split); try apply Forall_nil;
    reflexivity.
Qed.

(** ** Rendering of the key-value errors *)

(** C8, as stated, fails: a [KeyNotFoundError] built with the message
    [""] renders without the suffix, not as ["nats: key not found: "]. *)
Lemma KeyNotFoundError_empty_message_counterexample :
  ∃ o, construct KeyNotFoundError [] {[ "message" := PStr "" ]} = Ret o ∧
       getattr o "message" = Ret (PStr "") ∧
       str_ o = Some (Ret "nats: key not found") ∧
       str_ o ≠ Some (Ret ("nats: key not found: " +:+ "")).
Proof.
  eexists. split; [reflexivity|]. split; [reflexivity|].
  split; [reflexivity|]. discriminate.
Qed.

(** C8, amended.  A [KeyNotFoundError] whose message is a text [m] other
    than the empty one renders as [nats: key not found: <m>], so with the
    message [bucket closed] as [nats: key not found: bucket closed]; every
    [KeyNotFoundError] whose message is unset, whatever its entry and
    operation are, renders as [nats: key not found]. *)
Theorem KeyNotFoundError_render (o : obj) :
  ob_class o = KeyNotFoundError →
  (∀ m, getattr o "message" = Ret (PStr m) → m ≠ "" →
        str_ o = Some (Ret ("nats: key not found: " +:+ m))) ∧
  (getattr o "message" = Ret PNone →
   str_ o = Some (Ret "nats: key not found")) ∧
  (∀ entry op m, m ≠ "" →
     ∃ o', construct KeyNotFoundError [entry; op; PStr m] ∅ = Ret o' ∧
           str_ o' = Some (Ret ("nats: key not found: " +:+ m))) ∧
  (∀ entry op,
     ∃ o', construct KeyNotFoundError [entry; op] ∅ = Ret o' ∧
           getattr o' "message" = Ret PNone ∧
           str_ o' = Some (Ret "nats: key not found")) ∧
  (∃ o', construct KeyNotFoundError [] {[ "message" := PStr "bucket closed" ]}
           = Ret o' ∧
         str_ o' = Some (Ret "nats: key not found: bucket closed")) ∧
  (∃ o', construct KeyNotFoundError [] ∅ = Ret o' ∧
         getattr o' "message" = Ret PNone ∧
         str_ o' = Some (Ret "nats: key not found")).
Proof.
  intros Hcls.
  assert (Hinit : resolve own_init KeyNotFoundError = own_init KeyNotFoundError)
    by reflexivity.
  split; [|split; [|split; [|split; [|split]]]].
  - intros m Hm Hne.
    rewrite (str_by_class o _ KeyNotFoundError_str Hcls eq_refl).
    unfold KeyNotFoundError_str. rewrite Hm. cbn [mbind pyres_bind truthy].
    apply String.eqb_neq in Hne. rewrite Hne. reflexivity.
  - intros Hm.
    rewrite (str_by_class o _ KeyNotFoundError_str Hcls eq_refl).
    unfold KeyNotFoundError_str. rewrite Hm. reflexivity.
  - intros entry op m Hne. unfold construct. rewrite Hinit.
    cbn [own_init init_params init_body].
    rewrite bind_args_positional by (cbn; lia). cbn [mbind pyres_bind].
    set (a := (list_to_map (zip ["entry"; "op"; "message"] [entry; op; PStr m])
               ∪ gset_to_gmap PNone (list_to_set ["entry"; "op"; "message"])
               : gmap string pyval)).
    assert (Ha : a !!! "entry" = entry ∧ a !!! "op" = op ∧
                 a !!! "message" = PStr m).
    { subst a. rewrite !lookup_total_alt. repeat split; reflexivity. }
    destruct Ha as (-> & -> & ->).
    eexists. split; [reflexivity|].
    rewrite (str_by_class
               (KeyNotFoundError_init (Obj KeyNotFoundError ∅) entry op (PStr m))
               KeyNotFoundError KeyNotFoundError_str eq_refl eq_refl).
    unfold KeyNotFoundError_str, KeyNotFoundError_init. read_attrs.
    cbn [mbind pyres_bind truthy].
    apply String.eqb_neq in Hne. rewrite Hne. reflexivity.
  - intros entry op. unfold construct. rewrite Hinit.
    cbn [own_init init_params init_body].
    rewrite bind_args_positional by (cbn; lia). cbn [mbind pyres_bind].
    set (a := (list_to_map (zip ["entry"; "op"; "message"] [entry; op])
               ∪ gset_to_gmap PNone (list_to_set ["entry"; "op"; "message"])
               : gmap string pyval)).
    assert (Ha : a !!! "entry" = entry ∧ a !!! "op" = op ∧
                 a !!! "message" = PNone).
    { subst a. rewrite !lookup_total_alt. repeat split; reflexivity. }
    destruct Ha as (-> & -> & ->).
    eexists. split; [reflexivity|].
    rewrite (str_by_class
               (KeyNotFoundError_init (Obj KeyNotFoundError ∅) entry op PNone)
               KeyNotFoundError KeyNotFoundError_str eq_refl eq_refl).
    unfold KeyNotFoundError_str, KeyNotFoundError_init. read_attrs.
    by split.
  - eexists. split; reflexivity.
  - eexists. split; [reflexivity|]. split; reflexivity.
Qed.

Lemma KeyNotFoundError_render_witness :
  let o := Obj KeyNotFoundError
             {[ "entry" := PNone; "op" := PNone;
                "message" := PStr "bucket closed" ]} in
  ob_class o = KeyNotFoundError ∧
  getattr o "message" = Ret (PStr "bucket closed") ∧
  "bucket closed" ≠ "" ∧
  str_ o = Some (Ret "nats: key not found: bucket closed").
Proof.
  intros o.
  assert (H1 : ob_class o = KeyNotFoundError) by reflexivity.
  assert (H2 : getattr o "message" = Ret (PStr "bucket closed")) by reflexivity.
  assert (H3 : "bucket closed" ≠ "") by discriminate.
  repeat (split; [assumption|]).
  exact (proj1 (KeyNotFoundError_render o H1) "bucket closed" H2 H3).
Defined.



(** ** Empty text and absent text *)

(** The classes that render through [Error.__str__] and are built by
    [Error.__init__]. *)
Lemma base_error_kinds (c : cls) :
  definer own_str c = Some Error ∧ definer own_init c = Some Error ↔
  c ∈ [Error; InvalidBucketNameError; InvalidObjectNameError;
       BadObjectMetaError; LinkIsABucketError; DigestMismatchError;
       ObjectAlreadyExists].
Proof.
  split.
  - intros [Hs Hi]. destruct c; try discriminate Hs; try discriminate Hi;
      repeat constructor.
  - rewrite !elem_of_cons, elem_of_nil.
    intros [->|[->|[->|[->|[->|[->|[->|[]]]]]]]]; split; reflexivity.
Qed.

(** C10.  For every class that renders through [Error.__str__] and is
    built by [Error.__init__], the instance built with the description
    [""] and the one built with no description render as the same text,
    [nats: JetStream.<KindName> ] with nothing after the space.  A
    [KeyNotFoundError] built with the message [""] renders as
    [nats: key not found], as does one built with no message. *)
Theorem empty_text_renders_as_absent (c : cls) :
  definer own_str c = Some Error →
  definer own_init c = Some Error →
  (∀ o1 o2,
     ob_class o1 = c → ob_class o2 = c →
     getattr o1 "description" = Ret (PStr "") →
     getattr o2 "description" = Ret PNone →
     str_ o1 = Some (Ret ("nats: JetStream." +:+ cls_name c +:+ " ")) ∧
     str_ o2 = str_ o1) ∧
  (∃ o1 o2,
     construct c [] {[ "description" := PStr "" ]} = Ret o1 ∧
     construct c [] ∅ = Ret o2 ∧
     ob_class o1 = c ∧ ob_class o2 = c ∧
     getattr o1 "description" = Ret (PStr "") ∧
     getattr o2 "description" = Ret PNone) ∧
  (∀ o1 o2,
     ob_class o1 = KeyNotFoundError → ob_class o2 = KeyNotFoundError →
     getattr o1 "message" = Ret (PStr "") →
     getattr o2 "message" = Ret PNone →
     str_ o1 = Some (Ret "nats: key not found") ∧
     str_ o2 = str_ o1) ∧
  (∃ o1 o2,
     construct KeyNotFoundError [] {[ "message" := PStr "" ]} = Ret o1 ∧
     construct KeyNotFoundError [] ∅ = Ret o2 ∧
     ob_class o1 = KeyNotFoundError ∧ ob_class o2 = KeyNotFoundError ∧
     getattr o1 "message" = Ret (PStr "") ∧
     getattr o2 "message" = Ret PNone).
Proof.
  intros Hs Hi. split; [|split; [|split]].
  - intros o1 o2 Hc1 Hc2 Hd1 Hd2.
    assert (Hm : resolve own_str c = Some Error_str)
      by (unfold resolve; by rewrite Hs).
    rewrite (str_by_class o1 c Error_str Hc1 Hm),
            (str_by_class o2 c Error_str Hc2 Hm).
    unfold Error_str. rewrite Hd1, Hd2, Hc1, Hc2. split; reflexivity.
  - assert (Hc : c ∈ [Error; InvalidBucketNameError; InvalidObjectNameError;
                      BadObjectMetaError; LinkIsABucketError;
                      DigestMismatchError; ObjectAlreadyExists])
      by (by apply base_error_kinds).
    revert Hc. rewrite !elem_of_cons, elem_of_nil.
    intros [->|[->|[->|[->|[->|[->|[->|[]]]]]]]];
      do 2 eexists; repeat split; reflexivity.
  - intros o1 o2 Hc1 Hc2 Hm1 Hm2.
    rewrite (str_by_class o1 _ KeyNotFoundError_str Hc1 eq_refl),
            (str_by_class o2 _ KeyNotFoundError_str Hc2 eq_refl).
    unfold KeyNotFoundError_str. rewrite Hm1, Hm2. split; reflexivity.
  - do 2 eexists; repeat split; reflexivity.
Qed.

Lemma empty_text_renders_as_absent_witness :
  definer own_str DigestMismatchError = Some Error ∧
  definer own_init DigestMismatchError = Some Error ∧
  ∃ o1 o2,
    construct DigestMismatchError [] {[ "description" := PStr "" ]} = Ret o1 ∧
    construct DigestMismatchError [] ∅ = Ret o2 ∧
    str_ o1 = Some (Ret "nats: JetStream.DigestMismatchError ") ∧
    str_ o2 = str_ o1.
Proof.
  assert (H1 : definer own_str DigestMismatchError = Some Error) by reflexivity.
  assert (H2 : definer own_init DigestMismatchError = Some Error) by reflexivity.
  repeat (split; [assumption|]).
  destruct (empty_text_renders_as_absent DigestMismatchError H1 H2)
    as (Hstr & (o1 & o2 & Hb1 & Hb2 & Hc1 & Hc2 & Hd1 & Hd2) & _).
  exists o1, o2. split; [exact Hb1|]. split; [exact Hb2|].
  exact (Hstr o1 o2 Hc1 Hc2 Hd1 Hd2).
Defined.

(** * Further properties of the module *)

(** ** Attributes and construction *)

(** A call that fails to bind its arguments raises [TypeError]. *)
Lemma bind_args_failure params args (kwargs : gmap string pyval) e :
  bind_args params args kwargs = Raise e → e = TypeError.
Proof.
  unfold bind_args. repeat case_decide; intros He; by inversion He.
Qed.

(** Method lookup through the defining class. *)
Lemma resolve_definer {M} (own : cls → option M) (c k : cls) :
  definer own c = Some k → resolve own c = own k.
Proof. intros Hk. unfold resolve. by rewrite Hk. Qed.

Lemma resolve_no_definer {M} (own : cls → option M) (c : cls) :
  definer own c = None → resolve own c = None.
Proof. intros Hk. unfold resolve. by rewrite Hk. Qed.

(** Replaces the lookup of [__init__] for a class given by name by the
    method found. *)
Ltac resolve_init :=
  match goal with
  | |- context [resolve own_init ?k] =>
      let r := eval vm_compute in (definer own_init k) in
      lazymatch r with
      | Some ?k' =>
          rewrite (resolve_definer own_init k k' eq_refl); cbn [own_init]
      | None => rewrite (resolve_no_definer own_init k eq_refl)
      end
  end.

(** A constructor call yields an instance of the class that was called. *)
Lemma construct_class c args (kwargs : gmap string pyval) o :
  construct c args kwargs = Ret o → ob_class o = c.
Proof.
  unfold construct.
  destruct c; resolve_init;
    first [ destruct (bind_args _ args kwargs) as [a|e];
            cbn [mbind pyres_bind init_body]; intros H; inversion H;
            reflexivity
          | destruct (decide (kwargs = ∅)); intros H; inversion H;
            reflexivity ].
Qed.

Lemma construct_failure c args (kwargs : gmap string pyval) e :
  construct c args kwargs = Raise e → e = TypeError.
Proof.
  unfold construct. destruct (resolve own_init c) as [d|].
  - destruct (bind_args _ args kwargs) as [a|e'] eqn:Hb;
      cbn [mbind pyres_bind]; intros H; inversion H; subst.
    by eapply bind_args_failure.
  - destruct (decide (kwargs = ∅)); intros H; by inversion H.
Qed.

Lemma bind_args_unexpected_keyword params args (kwargs : gmap string pyval) k v :
  kwargs !! k = Some v → k ∉ params →
  bind_args params args kwargs = Raise TypeError.
Proof.
  intros Hk Hnot. unfold bind_args.
  destruct (decide (length args ≤ length params)%nat); [|done].
  destruct (decide (map_Forall (λ k _, k ∈ params) kwargs)) as [Hall|]; [|done].
  destruct Hnot. by eapply Hall.
Qed.

Lemma bind_args_too_many params args (kwargs : gmap string pyval) :
  (length params < length args)%nat →
  bind_args params args kwargs = Raise TypeError.
Proof.
  intros Hlen. unfold bind_args.
  destruct (decide (length args ≤ length params)%nat); [lia|done].
Qed.

Lemma bind_args_given_twice params args (kwargs : gmap string pyval) i k v :
  params !! i = Some k → (i < length args)%nat →
  kwargs !! k = Some v →
  bind_args params args kwargs = Raise TypeError.
Proof.
  intros Hi Hlt Hk. unfold bind_args.
  destruct (decide (length args ≤ length params)%nat); [|done].
  destruct (decide (map_Forall (λ k _, k ∈ params) kwargs)); [|done].
  destruct (decide (kwargs ##ₘ list_to_map (zip params args))) as [Hdis|];
    [|done].
  destruct (lookup_lt_is_Some_2 args i Hlt) as [a Ha].
  destruct ((list_to_map (zip params args) : gmap string pyval) !! k)
    as [a'|] eqn:Hpos.
  - by destruct (proj1 (map_disjoint_spec _ _) Hdis k v a' Hk Hpos).
  - apply not_elem_of_list_to_map_2 in Hpos. destruct Hpos.
    apply list_elem_of_fmap. exists (k, a). split; [done|].
    apply list_elem_of_lookup. exists i.
    apply lookup_zip_with_Some. by exists k, a.
Qed.

(** X1.  A class whose [__init__] is found in the file rejects, with
    [TypeError], a call with more positional arguments than [__init__]
    has parameters, a call with a keyword that is no parameter, and a
    call that gives a parameter both by position and by keyword. *)
Theorem construct_rejects (c : cls) (d : init_def) (args : list pyval)
    (kwargs : gmap string pyval) :
  resolve own_init c = Some d →
  ((length (init_params d) < length args)%nat →
   construct c args kwargs = Raise TypeError) ∧
  (∀ k v, kwargs !! k = Some v → k ∉ init_params d →
          construct c args kwargs = Raise TypeError) ∧
  (∀ i k v, init_params d !! i = Some k → (i < length args)%nat →
            kwargs !! k = Some v →
            construct c args kwargs = Raise TypeError).
Proof.
  intros Hd. unfold construct. rewrite Hd. repeat split.
  - intros Hlen. by rewrite bind_args_too_many.
  - intros k v Hk Hnot. by erewrite bind_args_unexpected_keyword.
  - intros i k v Hi Hlt Hk. by erewrite bind_args_given_twice.
Qed.

Lemma construct_rejects_witness :
  resolve own_init KeyDeletedError = own_init KeyDeletedError ∧
  construct KeyDeletedError [PNone; PNone; PStr "gone"] ∅ = Raise TypeError ∧
  construct KeyDeletedError [] {[ "message" := PStr "gone" ]} = Raise TypeError ∧
  construct KeyDeletedError [PNone] {[ "entry" := PNone ]} = Raise TypeError.
Proof.
  assert (Hd : resolve own_init KeyDeletedError = own_init KeyDeletedError)
    by reflexivity.
  split; [exact Hd|]. split; [|split].
  - apply (construct_rejects KeyDeletedError _ _ _ Hd). cbn. lia.
  - apply (proj1 (proj2 (construct_rejects KeyDeletedError _ _ _ Hd))
             "message" (PStr "gone")); [reflexivity|compute_done].
  - apply (proj2 (proj2 (construct_rejects KeyDeletedError _ _ _ Hd))
             0%nat "entry" PNone); [reflexivity|cbn; lia|reflexivity].
Defined.

(** ** More on [APIError.from_error] *)

Lemma status_kind_family (code : pyval) :
  status_kind code ∈ [APIError; ServiceUnavailableError; ServerError;
                      NotFoundError; BadRequestError].
Proof. unfold status_kind. repeat case_match; repeat constructor. Qed.

Lemma from_error_by_kind (cls_ : cls) (err : gmap string pyval) (code : pyval) :
  err !! "code" = Some code →
  from_error cls_ err = raise_ (construct (status_kind code) [] err).
Proof.
  intros Hcode. unfold from_error, subscript, status_kind. rewrite Hcode.
  cbn [mbind pyres_bind]. by repeat case_match.
Qed.

(** X2.  A mapping without the key [code] makes [from_error] raise
    [KeyError] for that key, whatever else the mapping holds. *)
Theorem from_error_missing_code (cls_ : cls) (err : gmap string pyval) :
  err !! "code" = None →
  from_error cls_ err = Raise (KeyError "code").
Proof. intros Hcode. unfold from_error, subscript. by rewrite Hcode. Qed.

Lemma from_error_missing_code_witness :
  let err : gmap string pyval :=
    {[ "err_code" := PInt 10014; "description" := PStr "consumer not found" ]} in
  err !! "code" = None ∧
  from_error APIError err = Raise (KeyError "code").
Proof.
  intros err. assert (H : err !! "code" = None) by reflexivity.
  split; [exact H|]. exact (from_error_missing_code APIError err H).
Defined.

(** X3.  A mapping that has [code] and also a key that is none of the
    five fields makes [from_error] raise [TypeError]: the mapping is
    passed on as keyword arguments, and [APIError.__init__] has no such
    parameter. *)
Theorem from_error_unexpected_key (cls_ : cls) (err : gmap string pyval)
    (code : pyval) (k : string) (v : pyval) :
  err !! "code" = Some code →
  err !! k = Some v →
  k ∉ api_error_fields →
  from_error cls_ err = Raise TypeError.
Proof.
  intros Hcode Hk Hnot. rewrite (from_error_by_kind _ _ _ Hcode).
  unfold raise_, construct.
  rewrite (resolve_own_init_family _ (status_kind_family code)).
  cbn [own_init init_params].
  by erewrite bind_args_unexpected_keyword.
Qed.

Lemma from_error_unexpected_key_witness :
  let err : gmap string pyval :=
    {[ "code" := PInt 404; "message" := PStr "stream not found" ]} in
  err !! "code" = Some (PInt 404) ∧
  err !! "message" = Some (PStr "stream not found") ∧
  ("message" ∉ api_error_fields) ∧
  from_error APIError err = Raise TypeError.
Proof.
  intros err.
  assert (H1 : err !! "code" = Some (PInt 404)) by reflexivity.
  assert (H2 : err !! "message" = Some (PStr "stream not found")) by reflexivity.
  assert (H3 : "message" ∉ api_error_fields) by compute_done.
  repeat (split; [assumption|]).
  exact (from_error_unexpected_key APIError err _ _ _ H1 H2 H3).
Defined.

(** X4.  [from_error] ends in one of three ways and no other: [KeyError]
    for [code], [TypeError], or an error of one of the five classes
    [APIError], [ServiceUnavailableError], [ServerError], [NotFoundError]
    and [BadRequestError].  The class it is called on plays no part:
    called on any other class it does the same. *)
Theorem from_error_outcomes (cls_ : cls) (err : gmap string pyval) :
  (from_error cls_ err = Raise (KeyError "code") ∨
   from_error cls_ err = Raise TypeError ∨
   ∃ o, from_error cls_ err = Raise (JsError o) ∧
        ob_class o ∈ [APIError; ServiceUnavailableError; ServerError;
                      NotFoundError; BadRequestError]) ∧
  (∀ c : cls, from_error c err = from_error cls_ err).
Proof.
  split; [|reflexivity].
  destruct (err !! "code") as [code|] eqn:Hcode.
  - rewrite (from_error_by_kind _ _ _ Hcode). unfold raise_.
    destruct (construct (status_kind code) [] err) as [o|e] eqn:Hc;
      cbn [mbind pyres_bind].
    + right. right. exists o. split; [done|].
      rewrite (construct_class _ _ _ _ Hc). apply status_kind_family.
    + right. left. by rewrite (construct_failure _ _ _ _ Hc).
  - left. unfold from_error, subscript. by rewrite Hcode.
Qed.

(** X5.  A [code] that is [None], a boolean or text (also the text
    ["404"]) equals none of 503, 500, 404 and 400, so [from_error] raises
    the plain [APIError], and the error keeps the value of [code] as it
    was given. *)
Theorem from_error_code_none_bool_or_text (cls_ : cls)
    (err : gmap string pyval) (code : pyval) :
  err !! "code" = Some code →
  code = PNone ∨ (∃ b, code = PBool b) ∨ (∃ s, code = PStr s) →
  map_Forall (λ k _, k ∈ api_error_fields) err →
  ∃ o, from_error cls_ err = Raise (JsError o) ∧
       ob_class o = APIError ∧
       getattr o "code" = Ret code.
Proof.
  intros Hcode Hshape Hkeys. rewrite (from_error_by_kind _ _ _ Hcode).
  assert (Hkind : status_kind code = APIError).
  { destruct Hshape as [->|[[b ->]|[t ->]]]; [reflexivity| |reflexivity].
    by destruct b. }
  rewrite Hkind.
  destruct (construct_family_keywords APIError err) as (o & Ho & Hcls & Hget);
    [repeat constructor|done|].
  exists o. unfold raise_. rewrite Ho. split; [done|]. split; [done|].
  rewrite Hget by repeat constructor. by rewrite Hcode.
Qed.

Lemma from_error_code_none_bool_or_text_witness :
  let err : gmap string pyval :=
    {[ "code" := PStr "404"; "description" := PStr "consumer not found" ]} in
  err !! "code" = Some (PStr "404") ∧
  (PStr "404" = PNone ∨ (∃ b, PStr "404" = PBool b)
   ∨ (∃ s, PStr "404" = PStr s)) ∧
  map_Forall (λ k _, k ∈ api_error_fields) err ∧
  ∃ o, from_error APIError err = Raise (JsError o) ∧
       ob_class o = APIError ∧
       getattr o "code" = Ret (PStr "404").
Proof.
  intros err.
  assert (H1 : err !! "code" = Some (PStr "404")) by reflexivity.
  assert (H2 : PStr "404" = PNone ∨ (∃ b, PStr "404" = PBool b)
               ∨ (∃ s, PStr "404" = PStr s))
    by (right; right; by eexists).
  assert (H3 : map_Forall (λ k _, k ∈ api_error_fields) err) by compute_done.
  repeat (split; [assumption|]).
  exact (from_error_code_none_bool_or_text APIError err _ H1 H2 H3).
Defined.

(** X6.  The text of an error raised by [from_error]: for a mapping
    with [code] and no key beyond the five fields it is
    [nats: <KindName>: code=<code> err_code=<err_code>
    description='<description>'], with the kind chosen by [code] and with
    [None] for a missing [err_code] or [description]; [stream] and [seq]
    do not show. *)
Theorem from_error_str (cls_ : cls) (err : gmap string pyval) (code : pyval) :
  err !! "code" = Some code →
  map_Forall (λ k _, k ∈ api_error_fields) err →
  ∃ o, from_error cls_ err = Raise (JsError o) ∧
       str_ o =
         Some (Ret ("nats: " +:+ cls_name (status_kind code) +:+ ": code="
                    +:+ py_str code +:+ " err_code="
                    +:+ py_str (default PNone (err !! "err_code"))
                    +:+ " description='"
                    +:+ py_str (default PNone (err !! "description"))
                    +:+ "'")).
Proof.
  intros Hcode Hkeys. rewrite (from_error_by_kind _ _ _ Hcode).
  destruct (construct_family_keywords (status_kind code) err)
    as (o & Ho & Hcls & Hget); [apply status_kind_family|done|].
  exists o. unfold raise_. rewrite Ho. split; [done|].
  rewrite (str_by_class o _ APIError_str Hcls)
    by (apply resolve_own_str_family, status_kind_family).
  unfold APIError_str. rewrite !Hget by repeat constructor.
  rewrite Hcode, Hcls. reflexivity.
Qed.

Lemma from_error_str_witness :
  let err : gmap string pyval :=
    {[ "code" := PInt 400; "err_code" := PInt 10071;
       "description" := PStr "wrong last sequence: 5";
       "stream" := PStr "KV_orders" ]} in
  err !! "code" = Some (PInt 400) ∧
  map_Forall (λ k _, k ∈ api_error_fields) err ∧
  ∃ o, from_error APIError err = Raise (JsError o) ∧
       str_ o = Some (Ret "nats: BadRequestError: code=400 err_code=10071 description='wrong last sequence: 5'").
Proof.
  intros err.
  assert (H1 : err !! "code" = Some (PInt 400)) by reflexivity.
  assert (H2 : map_Forall (λ k _, k ∈ api_error_fields) err) by compute_done.
  repeat (split; [assumption|]).
  exact (from_error_str APIError err _ H1 H2).
Defined.

(** ** More on [APIError.from_msg] *)

(** X7.  Headers without a status entry make [from_msg] raise
    [KeyError] for the status name. *)
Theorem from_msg_missing_status (api : api_module) (int_text : string → option Z)
    (cls_ : cls) (msg : Msg)
    (hdr : gmap string string) :
  header msg = Some hdr →
  hdr !! Header_STATUS api = None →
  from_msg api int_text cls_ msg = Raise (KeyError (Header_STATUS api)).
Proof.
  intros Hhdr Hstatus. unfold from_msg, subscript. by rewrite Hhdr, Hstatus.
Qed.

Lemma from_msg_missing_status_witness :
  let hdr : gmap string string := {[ "Description" := "No Messages" ]} in
  let msg := {| header := Some hdr |} in
  header msg = Some hdr ∧
  hdr !! Header_STATUS nats_js_api = None ∧
  from_msg nats_js_api py_int APIError msg = Raise (KeyError "Status").
Proof.
  intros hdr msg.
  assert (H1 : header msg = Some hdr) by reflexivity.
  assert (H2 : hdr !! Header_STATUS nats_js_api = None) by reflexivity.
  repeat (split; [assumption|]).
  exact (from_msg_missing_status nats_js_api py_int APIError msg hdr H1 H2).
Defined.

(** X8.  With a status entry other than the service-unavailable code
    and no description entry, [from_msg] raises [KeyError] for the
    description name; the description is read before the status is
    turned into a number, so this holds for a status that is no number
    as well. *)
Theorem from_msg_missing_description (api : api_module) (int_text : string → option Z)
    (cls_ : cls)
    (msg : Msg) (hdr : gmap string string) (status : string) :
  header msg = Some hdr →
  hdr !! Header_STATUS api = Some status →
  status ≠ StatusCode_SERVICE_UNAVAILABLE api →
  hdr !! Header_DESCRIPTION api = None →
  from_msg api int_text cls_ msg = Raise (KeyError (Header_DESCRIPTION api)).
Proof.
  intros Hhdr Hstatus Hne Hdesc. unfold from_msg, subscript.
  rewrite Hhdr, Hstatus. cbn [mbind pyres_bind].
  apply String.eqb_neq in Hne. by rewrite Hne, Hdesc.
Qed.

Lemma from_msg_missing_description_witness :
  let hdr : gmap string string := {[ "Status" := "4o4" ]} in
  let msg := {| header := Some hdr |} in
  header msg = Some hdr ∧
  hdr !! Header_STATUS nats_js_api = Some "4o4" ∧
  "4o4" ≠ StatusCode_SERVICE_UNAVAILABLE nats_js_api ∧
  hdr !! Header_DESCRIPTION nats_js_api = None ∧
  py_int "4o4" = None ∧
  from_msg nats_js_api py_int APIError msg = Raise (KeyError "Description").
Proof.
  intros hdr msg.
  assert (H1 : header msg = Some hdr) by reflexivity.
  assert (H2 : hdr !! Header_STATUS nats_js_api = Some "4o4") by reflexivity.
  assert (H3 : "4o4" ≠ StatusCode_SERVICE_UNAVAILABLE nats_js_api)
    by discriminate.
  assert (H4 : hdr !! Header_DESCRIPTION nats_js_api = None) by reflexivity.
  assert (H5 : py_int "4o4" = None) by reflexivity.
  repeat (split; [assumption|]).
  exact (from_msg_missing_description nats_js_api py_int APIError msg hdr _ H1 H2 H3 H4).
Defined.

Lemma from_msg_status_not_a_number_aux (api : api_module) (int_text : string → option Z)
    (cls_ : cls)
    (msg : Msg) (hdr : gmap string string) (status desc : string) :
  header msg = Some hdr →
  hdr !! Header_STATUS api = Some status →
  status ≠ StatusCode_SERVICE_UNAVAILABLE api →
  hdr !! Header_DESCRIPTION api = Some desc →
  int_text status = None →
  from_msg api int_text cls_ msg = Raise ValueError.
Proof.
  intros Hhdr Hstatus Hne Hdesc Hint. unfold from_msg, subscript, int_.
  rewrite Hhdr, Hstatus. cbn [mbind pyres_bind].
  apply String.eqb_neq in Hne. by rewrite Hne, Hdesc, Hint.
Qed.

(** X9.  With a description entry and a status entry that differs from
    the service-unavailable code and on which [int()] raises
    [ValueError], [from_msg] raises that [ValueError]. *)
Theorem from_msg_status_not_a_number (api : api_module) (int_text : string → option Z)
    (cls_ : cls)
    (msg : Msg) (hdr : gmap string string) (status desc : string) :
  header msg = Some hdr →
  hdr !! Header_STATUS api = Some status →
  status ≠ StatusCode_SERVICE_UNAVAILABLE api →
  hdr !! Header_DESCRIPTION api = Some desc →
  int_text status = None →
  from_msg api int_text cls_ msg = Raise ValueError.
Proof.
  intros Hhdr Hstatus Hne Hdesc Hint. unfold from_msg, subscript, int_.
  rewrite Hhdr, Hstatus. cbn [mbind pyres_bind].
  apply String.eqb_neq in Hne. by rewrite Hne, Hdesc, Hint.
Qed.

Lemma from_msg_status_not_a_number_witness :
  let hdr : gmap string string :=
    {[ "Status" := ""; "Description" := "No Messages" ]} in
  let msg := {| header := Some hdr |} in
  header msg = Some hdr ∧
  hdr !! Header_STATUS nats_js_api = Some "" ∧
  "" ≠ StatusCode_SERVICE_UNAVAILABLE nats_js_api ∧
  hdr !! Header_DESCRIPTION nats_js_api = Some "No Messages" ∧
  py_int "" = None ∧
  from_msg nats_js_api py_int APIError msg = Raise ValueError.
Proof.
  intros hdr msg.
  assert (H1 : header msg = Some hdr) by reflexivity.
  assert (H2 : hdr !! Header_STATUS nats_js_api = Some "") by reflexivity.
  assert (H3 : "" ≠ StatusCode_SERVICE_UNAVAILABLE nats_js_api) by discriminate.
  assert (H4 : hdr !! Header_DESCRIPTION nats_js_api = Some "No Messages")
    by reflexivity.
  assert (H5 : py_int "" = None) by reflexivity.
  repeat (split; [assumption|]).
  exact (from_msg_status_not_a_number nats_js_api py_int APIError msg hdr _ _
           H1 H2 H3 H4 H5).
Defined.

(** The error [from_msg] builds from a status and a description. *)
Lemma from_msg_builds (api : api_module) (int_text : string → option Z)
    (cls_ : cls) (msg : Msg)
    (hdr : gmap string string) (status desc : string) (n : Z) :
  header msg = Some hdr →
  hdr !! Header_STATUS api = Some status →
  status ≠ StatusCode_SERVICE_UNAVAILABLE api →
  hdr !! Header_DESCRIPTION api = Some desc →
  int_text status = Some n →
  ∃ o, from_msg api int_text cls_ msg = Raise (JsError o) ∧
       ob_class o = APIError ∧
       getattr o "code" = Ret (PInt n) ∧
       getattr o "err_code" = Ret PNone ∧
       getattr o "description" = Ret (PStr desc).
Proof.
  intros Hhdr Hstatus Hne Hdesc Hint.
  set (kw := ({[ "code" := PInt n; "description" := PStr desc ]}
              : gmap string pyval)).
  assert (Hkw : map_Forall (λ k _, k ∈ api_error_fields) kw).
  { intros k v [[<- _]|[_ [<- _]%lookup_singleton_Some]]%lookup_insert_Some;
      repeat constructor. }
  destruct (construct_family_keywords APIError kw) as (o & Ho & Hcls & Hget);
    [repeat constructor|done|].
  exists o. unfold from_msg, subscript, int_, raise_.
  rewrite Hhdr, Hstatus. cbn [mbind pyres_bind].
  apply String.eqb_neq in Hne. rewrite Hne, Hdesc, Hint.
  cbn [mbind pyres_bind]. fold kw. rewrite Ho.
  split; [reflexivity|]. split; [exact Hcls|].
  rewrite !Hget by repeat constructor. subst kw.
  repeat split; by simplify_map_eq.
Qed.

(** X10.  [from_msg] ends in one of four ways and no other: an
    [APIError], a [ServiceUnavailableError], a [KeyError] for the status
    or the description name, or [ValueError].  It never raises
    [ServerError], [NotFoundError] or [BadRequestError]: a status of 500,
    404 or 400 in the headers gives the plain [APIError]. *)
Theorem from_msg_outcomes (api : api_module) (int_text : string → option Z)
    (cls_ : cls) (msg : Msg) :
  (∃ o, from_msg api int_text cls_ msg = Raise (JsError o) ∧
        (ob_class o = APIError ∨ ob_class o = ServiceUnavailableError)) ∨
  from_msg api int_text cls_ msg = Raise (KeyError (Header_STATUS api)) ∨
  from_msg api int_text cls_ msg = Raise (KeyError (Header_DESCRIPTION api)) ∨
  from_msg api int_text cls_ msg = Raise ValueError.
Proof.
  destruct (header msg) as [hdr|] eqn:Hhdr.
  - destruct (hdr !! Header_STATUS api) as [status|] eqn:Hstatus.
    + destruct (decide (status = StatusCode_SERVICE_UNAVAILABLE api))
        as [->|Hne].
      * left.
        destruct (construct_family_no_arguments ServiceUnavailableError)
          as (o & Ho & Hcls & _); [repeat constructor|].
        exists o. unfold from_msg, subscript, raise_.
        rewrite Hhdr, Hstatus. cbn [mbind pyres_bind].
        rewrite String.eqb_refl, Ho. split; [done|by right].
      * destruct (hdr !! Header_DESCRIPTION api) as [desc|] eqn:Hdesc.
        -- destruct (int_text status) as [n|] eqn:Hint.
           ++ left.
              destruct (from_msg_builds api int_text cls_ msg hdr status desc n)
                as (o & Ho & Hcls & _); try done.
              exists o. split; [done|by left].
           ++ do 3 right. by eapply from_msg_status_not_a_number_aux.
        -- right. right. left. by eapply from_msg_description_absent.
    + right. left. unfold from_msg, subscript. by rewrite Hhdr, Hstatus.
  - left.
    destruct (construct_family_no_arguments APIError) as (o & Ho & Hcls & _);
      [repeat constructor|].
    exists o. unfold from_msg, raise_. rewrite Hhdr, Ho. split; [done|by left].
Qed.

(** X11.  The text of the error that [from_msg] raises for a status
    other than the service-unavailable code, which [int()] turns into
    [n], and a description [desc]:
    [nats: APIError: code=<n> err_code=None description='<desc>']. *)
Theorem from_msg_str (api : api_module) (int_text : string → option Z)
    (cls_ : cls) (msg : Msg)
    (hdr : gmap string string) (status desc : string) (n : Z) :
  header msg = Some hdr →
  hdr !! Header_STATUS api = Some status →
  status ≠ StatusCode_SERVICE_UNAVAILABLE api →
  hdr !! Header_DESCRIPTION api = Some desc →
  int_text status = Some n →
  ∃ o, from_msg api int_text cls_ msg = Raise (JsError o) ∧
       str_ o = Some (Ret ("nats: APIError: code=" +:+ str_of_int n
                           +:+ " err_code=None description='" +:+ desc
                           +:+ "'")).
Proof.
  intros Hhdr Hstatus Hne Hdesc Hint.
  destruct (from_msg_builds api int_text cls_ msg hdr status desc n)
    as (o & Ho & Hcls & Hc & Hec & Hd); try done.
  exists o. split; [done|].
  rewrite (str_by_class o _ APIError_str Hcls eq_refl).
  unfold APIError_str. rewrite Hc, Hec, Hd, Hcls. reflexivity.
Qed.

Lemma from_msg_str_witness :
  let hdr : gmap string string :=
    {[ "Status" := "408"; "Description" := "Request Timeout" ]} in
  let msg := {| header := Some hdr |} in
  header msg = Some hdr ∧
  hdr !! Header_STATUS nats_js_api = Some "408" ∧
  "408" ≠ StatusCode_SERVICE_UNAVAILABLE nats_js_api ∧
  hdr !! Header_DESCRIPTION nats_js_api = Some "Request Timeout" ∧
  py_int "408" = Some 408 ∧
  ∃ o, from_msg nats_js_api py_int APIError msg = Raise (JsError o) ∧
       str_ o = Some (Ret "nats: APIError: code=408 err_code=None description='Request Timeout'").
Proof.
  intros hdr msg.
  assert (H1 : header msg = Some hdr) by reflexivity.
  assert (H2 : hdr !! Header_STATUS nats_js_api = Some "408") by reflexivity.
  assert (H3 : "408" ≠ StatusCode_SERVICE_UNAVAILABLE nats_js_api)
    by discriminate.
  assert (H4 : hdr !! Header_DESCRIPTION nats_js_api = Some "Request Timeout")
    by reflexivity.
  assert (H5 : py_int "408" = Some 408) by reflexivity.
  repeat (split; [assumption|]).
  exact (from_msg_str nats_js_api py_int APIError msg hdr _ _ _ H1 H2 H3 H4 H5).
Defined.

(** X12.  The errors that [from_msg] raises without reading a
    description carry no number: for a message without headers the text
    is [nats: APIError: code=None err_code=None description='None'], and
    for the service-unavailable status it is [nats:
    ServiceUnavailableError: code=None err_code=None description='None'],
    the status code itself not being stored. *)
Theorem from_msg_str_unset (api : api_module) (int_text : string → option Z)
    (cls_ : cls) :
  (∃ o, from_msg api int_text cls_ {| header := None |} = Raise (JsError o) ∧
        str_ o = Some (Ret "nats: APIError: code=None err_code=None description='None'")) ∧
  (∀ hdr : gmap string string,
     hdr !! Header_STATUS api = Some (StatusCode_SERVICE_UNAVAILABLE api) →
     ∃ o, from_msg api int_text cls_ {| header := Some hdr |} = Raise (JsError o) ∧
          str_ o = Some (Ret "nats: ServiceUnavailableError: code=None err_code=None description='None'")).
Proof.
  split.
  - destruct (construct_family_no_arguments APIError)
      as (o & Ho & Hcls & Hget); [repeat constructor|].
    exists o. unfold from_msg, raise_. cbn [header]. rewrite Ho.
    split; [done|].
    rewrite (str_by_class o _ APIError_str Hcls eq_refl).
    unfold APIError_str. rewrite !Hget by repeat constructor.
    by rewrite Hcls.
  - intros hdr Hstatus.
    destruct (construct_family_no_arguments ServiceUnavailableError)
      as (o & Ho & Hcls & Hget); [repeat constructor|].
    exists o. unfold from_msg, raise_, subscript. cbn [header].
    rewrite Hstatus. cbn [mbind pyres_bind]. rewrite String.eqb_refl, Ho.
    split; [done|].
    rewrite (str_by_class o _ APIError_str Hcls eq_refl).
    unfold APIError_str. rewrite !Hget by repeat constructor.
    by rewrite Hcls.
Qed.

(** ** More on rendering *)

(** X13.  The text of a [ConsumerSequenceMismatchError] needs both
    consumer sequence numbers: when [last_consumer_sequence] or
    [consumer_sequence] is no number, as in an instance built without
    arguments, where both are [None], [__str__] raises [TypeError] from
    the subtraction. *)
Theorem ConsumerSequenceMismatchError_str_needs_numbers (o : obj)
    (last consumer : pyval) :
  ob_class o = ConsumerSequenceMismatchError →
  getattr o "last_consumer_sequence" = Ret last →
  getattr o "consumer_sequence" = Ret consumer →
  as_int last = None ∨ as_int consumer = None →
  str_ o = Some (Raise TypeError) ∧
  ∃ o', construct ConsumerSequenceMismatchError [] ∅ = Ret o' ∧
        str_ o' = Some (Raise TypeError).
Proof.
  intros Hcls Hl Hc Hnone. split.
  - rewrite (str_by_class o _ ConsumerSequenceMismatchError_str Hcls eq_refl).
    unfold ConsumerSequenceMismatchError_str, py_sub. rewrite Hl, Hc.
    cbn [mbind pyres_bind].
    destruct Hnone as [->| ->]; [done|]. by destruct (as_int last).
  - eexists. split; reflexivity.
Qed.

Lemma ConsumerSequenceMismatchError_str_needs_numbers_witness :
  let o := Obj ConsumerSequenceMismatchError
             {[ "stream_resume_sequence" := PInt 10;
                "consumer_sequence" := PInt 5;
                "last_consumer_sequence" := PNone ]} in
  ob_class o = ConsumerSequenceMismatchError ∧
  getattr o "last_consumer_sequence" = Ret PNone ∧
  getattr o "consumer_sequence" = Ret (PInt 5) ∧
  (as_int PNone = None ∨ as_int (PInt 5) = None) ∧
  str_ o = Some (Raise TypeError).
Proof.
  intros o.
  assert (H1 : ob_class o = ConsumerSequenceMismatchError) by reflexivity.
  assert (H2 : getattr o "last_consumer_sequence" = Ret PNone) by reflexivity.
  assert (H3 : getattr o "consumer_sequence" = Ret (PInt 5)) by reflexivity.
  assert (H4 : as_int PNone = None ∨ as_int (PInt 5) = None)
    by (left; reflexivity).
  repeat (split; [assumption|]).
  exact (proj1 (ConsumerSequenceMismatchError_str_needs_numbers o _ _
                  H1 H2 H3 H4)).
Defined.

(** Replaces the lookup of [__str__] for a class given by name by the
    method found. *)
Ltac resolve_str :=
  match goal with
  | |- context [resolve own_str ?k] =>
      let r := eval vm_compute in (definer own_str k) in
      lazymatch r with
      | Some ?k' =>
          rewrite (resolve_definer own_str k k' eq_refl); cbn [own_str]
      | None => rewrite (resolve_no_definer own_str k eq_refl)
      end
  end.

(** Runs a constructor call on a class given by name, leaving the
    instance that [__init__] has filled. *)
Ltac run_construct H :=
  unfold construct in H; revert H; resolve_init;
  first [ destruct (bind_args _ _ _) as [?a|?e];
          cbn [mbind pyres_bind init_body]; intros H; inversion H; subst;
          clear H
        | destruct (decide (_ = ∅)); intros H; inversion H; subst; clear H ].

(** X14.  [KeyDeletedError], [KeyNotFoundError] and
    [KeyWrongLastSequenceError] are instances of [APIError], but their
    own [__init__] does not call the one of [APIError]: however they are
    built, reading [code], [err_code], [stream] or [seq] raises
    [AttributeError], and so does reading [description] on the first
    two. *)
Theorem key_errors_lack_api_fields (c : cls) (args : list pyval)
    (kwargs : gmap string pyval) (o : obj) :
  c ∈ [KeyDeletedError; KeyNotFoundError; KeyWrongLastSequenceError] →
  construct c args kwargs = Ret o →
  isinstance o APIError = true ∧
  getattr o "code" = Raise (AttributeError "code") ∧
  getattr o "err_code" = Raise (AttributeError "err_code") ∧
  getattr o "stream" = Raise (AttributeError "stream") ∧
  getattr o "seq" = Raise (AttributeError "seq") ∧
  (c ≠ KeyWrongLastSequenceError →
   getattr o "description" = Raise (AttributeError "description")).
Proof.
  intros Hc Ho. elem_cases Hc; run_construct Ho;
    unfold KeyDeletedError_init, KeyNotFoundError_init,
           KeyWrongLastSequenceError_init;
    repeat split; try (intros Hne; try (by destruct Hne)); read_attrs; done.
Qed.

Lemma key_errors_lack_api_fields_witness :
  ∃ o, construct KeyNotFoundError [] {[ "message" := PStr "bucket closed" ]}
         = Ret o ∧
       isinstance o APIError = true ∧
       getattr o "code" = Raise (AttributeError "code") ∧
       getattr o "description" = Raise (AttributeError "description").
Proof.
  eexists. split; [reflexivity|].
  destruct (key_errors_lack_api_fields KeyNotFoundError []
              {[ "message" := PStr "bucket closed" ]} _
              ltac:(compute_done) eq_refl)
    as (Hinst & Hcode & _ & _ & _ & Hdesc).
  split; [exact Hinst|]. split; [exact Hcode|].
  apply Hdesc. discriminate.
Defined.

(** Unfolds the methods of the file. *)
Ltac unfold_methods :=
  unfold Error_str, APIError_str, NoStreamResponseError_str,
         TooManyStalledMsgsError_str, FetchTimeoutError_str,
         KeyDeletedError_str, KeyNotFoundError_str,
         KeyWrongLastSequenceError_str, NoKeysError_str,
         KeyHistoryTooLargeError_str,
         Error_init, APIError_init, KeyDeletedError_init,
         KeyNotFoundError_init, KeyWrongLastSequenceError_init.

(** X15.  Apart from [ConsumerSequenceMismatchError], every class of the
    file renders whatever instance its constructor returns: [__str__]
    finds every attribute it reads and raises nothing. *)
Theorem constructed_instances_render (c : cls) (args : list pyval)
    (kwargs : gmap string pyval) (o : obj) :
  c ∉ [nats_errors_Error; nats_errors_TimeoutError;
       ConsumerSequenceMismatchError] →
  construct c args kwargs = Ret o →
  ∃ s, str_ o = Some (Ret s).
Proof.
  intros Hex Ho. unfold str_. rewrite (construct_class _ _ _ _ Ho).
  destruct c; try (by destruct Hex; compute_done);
    run_construct Ho; resolve_str;
    cbn [fmap option_fmap option_map]; unfold_methods;
    repeat (read_attrs; cbn [mbind pyres_bind]);
    by eexists.
Qed.

Lemma constructed_instances_render_witness :
  (NoKeysError ∉ [nats_errors_Error; nats_errors_TimeoutError;
                  ConsumerSequenceMismatchError]) ∧
  ∃ o, construct NoKeysError [PInt 404] {[ "stream" := PStr "KV_orders" ]}
         = Ret o ∧
       ∃ s, str_ o = Some (Ret s).
Proof.
  assert (H1 : NoKeysError ∉ [nats_errors_Error; nats_errors_TimeoutError;
                              ConsumerSequenceMismatchError]) by compute_done.
  split; [exact H1|]. eexists. split; [reflexivity|].
  exact (constructed_instances_render NoKeysError [PInt 404]
           {[ "stream" := PStr "KV_orders" ]} _ H1 eq_refl).
Defined.

(** ** More on the hierarchy *)

(** X16.  The classes that pass as [NotFoundError], as [BadRequestError]
    and as [KeyValueError] are exactly those listed: among others,
    [BucketNotFoundError] and [BadBucketError] are no [KeyValueError],
    and [KeyWrongLastSequenceError] is the only other
    [BadRequestError]. *)
Theorem capability_classes (c : cls) :
  issubclass c NotFoundError =
    bool_decide (c ∈ [NotFoundError; BucketNotFoundError; KeyDeletedError;
                      KeyNotFoundError; ObjectNotFoundError;
                      ObjectDeletedError]) ∧
  issubclass c BadRequestError =
    bool_decide (c ∈ [BadRequestError; KeyWrongLastSequenceError]) ∧
  issubclass c KeyValueError =
    bool_decide (c ∈ [KeyValueError; KeyDeletedError; KeyNotFoundError;
                      KeyWrongLastSequenceError; NoKeysError;
                      KeyHistoryTooLargeError]).
Proof. destruct c; repeat split; reflexivity. Qed.

(** X17.  Every class of the file derives from the module's [Error],
    with one exception: [FetchTimeoutError] derives from
    [nats.errors.TimeoutError] only, so a handler for the module's
    [Error] does not catch it.  The classes that derive from [APIError]
    are the status classes, the bucket classes, the key-value classes and
    the two not-found classes of the object store; the other object
    store errors and the three client-side errors do not. *)
Theorem error_base_classes (c : cls) :
  issubclass c Error =
    bool_decide (c ∉ [nats_errors_Error; nats_errors_TimeoutError;
                      FetchTimeoutError]) ∧
  issubclass c APIError =
    bool_decide (c ∈ [APIError; ServiceUnavailableError; ServerError;
                      NotFoundError; BadRequestError; BucketNotFoundError;
                      BadBucketError; KeyValueError; KeyDeletedError;
                      KeyNotFoundError; KeyWrongLastSequenceError;
                      NoKeysError; KeyHistoryTooLargeError;
                      ObjectNotFoundError; ObjectDeletedError]) ∧
  issubclass FetchTimeoutError nats_errors_TimeoutError = true.
Proof. destruct c; repeat split; reflexivity. Qed.

(** X18.  [isinstance] follows the class statements: an object is an
    instance of [k] exactly when [k] is reached from its class by going
    from a class to one of the bases its statement names, any number of
    times.  In particular the method resolution order exists for every
    class, the three with two bases included. *)
Theorem isinstance_follows_class_statements (o : obj) (k : cls) :
  (isinstance o k = true ↔ rtc direct_base (ob_class o) k) ∧
  mro_fuel (length all_classes) (ob_class o) = Some (mro (ob_class o)).
Proof. split; [apply issubclass_rtc|apply mro_fuel_enough]. Qed.

(** ** More on the inherited methods *)

(** The classes that render through [APIError.__str__]. *)
Lemma APIError_str_classes (c : cls) :
  definer own_str c = Some APIError ↔
  c ∈ [APIError; ServiceUnavailableError; ServerError; NotFoundError;
       BadRequestError; BucketNotFoundError; BadBucketError; KeyValueError;
       ObjectNotFoundError; ObjectDeletedError].
Proof.
  split.
  - intros Hs. destruct c; try discriminate Hs; repeat constructor.
  - intros Hc. elem_cases Hc; reflexivity.
Qed.

(** The classes that are built by [APIError.__init__]. *)
Lemma APIError_init_classes (c : cls) :
  definer own_init c = Some APIError ↔
  c ∈ [APIError; ServiceUnavailableError; ServerError; NotFoundError;
       BadRequestError; BucketNotFoundError; BadBucketError; KeyValueError;
       NoKeysError; KeyHistoryTooLargeError; ObjectNotFoundError;
       ObjectDeletedError].
Proof.
  split.
  - intros Hs. destruct c; try discriminate Hs; repeat constructor.
  - intros Hc. elem_cases Hc; reflexivity.
Qed.

(** X19.  The subclasses without a [__str__] of their own,
    [BucketNotFoundError], [BadBucketError], [KeyValueError],
    [ObjectNotFoundError] and [ObjectDeletedError], render in the format
    of [APIError] under their own class name. *)
Theorem APIError_str_inherited (o : obj) (c ec d : pyval) :
  ob_class o ∈ [BucketNotFoundError; BadBucketError; KeyValueError;
                ObjectNotFoundError; ObjectDeletedError] →
  getattr o "code" = Ret c →
  getattr o "err_code" = Ret ec →
  getattr o "description" = Ret d →
  str_ o = Some (Ret ("nats: " +:+ cls_name (ob_class o) +:+ ": code="
                      +:+ py_str c +:+ " err_code=" +:+ py_str ec
                      +:+ " description='" +:+ py_str d +:+ "'")).
Proof.
  intros Hcls Hc Hec Hd.
  assert (Hm : resolve own_str (ob_class o) = Some APIError_str).
  { apply (resolve_definer own_str _ APIError), APIError_str_classes.
    elem_cases Hcls; repeat constructor. }
  rewrite (str_by_class o _ APIError_str eq_refl Hm).
  unfold APIError_str. rewrite Hc, Hec, Hd. reflexivity.
Qed.

Lemma APIError_str_inherited_witness :
  let o := Obj BucketNotFoundError
             {[ "code" := PInt 404; "err_code" := PInt 10059;
                "description" := PStr "stream not found";
                "stream" := PNone; "seq" := PNone ]} in
  ob_class o ∈ [BucketNotFoundError; BadBucketError; KeyValueError;
                ObjectNotFoundError; ObjectDeletedError] ∧
  getattr o "code" = Ret (PInt 404) ∧
  getattr o "err_code" = Ret (PInt 10059) ∧
  getattr o "description" = Ret (PStr "stream not found") ∧
  str_ o = Some (Ret "nats: BucketNotFoundError: code=404 err_code=10059 description='stream not found'").
Proof.
  intros o.
  assert (H1 : ob_class o ∈ [BucketNotFoundError; BadBucketError;
                             KeyValueError; ObjectNotFoundError;
                             ObjectDeletedError]) by compute_done.
  assert (H2 : getattr o "code" = Ret (PInt 404)) by reflexivity.
  assert (H3 : getattr o "err_code" = Ret (PInt 10059)) by reflexivity.
  assert (H4 : getattr o "description" = Ret (PStr "stream not found"))
    by reflexivity.
  repeat (split; [assumption|]).
  exact (APIError_str_inherited o _ _ _ H1 H2 H3 H4).
Defined.



(** X21.  [APIError.__init__] takes its parameters in the order [code],
    [description], [err_code], [stream], [seq], which is not the order in
    which the class lists its fields: in a positional call of a class
    that inherits it the second argument is the description, and what is
    not given is [None]. *)
Theorem APIError_init_positional (c : cls) (a b : pyval) :
  definer own_init c = Some APIError →
  ∃ o, construct c [a; b] ∅ = Ret o ∧
       ob_class o = c ∧
       getattr o "code" = Ret a ∧
       getattr o "description" = Ret b ∧
       getattr o "err_code" = Ret PNone ∧
       getattr o "stream" = Ret PNone ∧
       getattr o "seq" = Ret PNone.
Proof.
  intros Hdef. unfold construct.
  rewrite (resolve_definer own_init c APIError Hdef). cbn [own_init].
  cbn [init_params init_body].
  rewrite bind_args_positional by (cbn; lia).
  cbn [mbind pyres_bind].
  set (m := (list_to_map (zip api_error_fields [a; b])
             ∪ gset_to_gmap PNone (list_to_set api_error_fields)
             : gmap string pyval)).
  assert (Hm : m !!! "code" = a ∧ m !!! "description" = b ∧
               m !!! "err_code" = PNone ∧ m !!! "stream" = PNone ∧
               m !!! "seq" = PNone).
  { subst m. rewrite !lookup_total_alt. repeat split; reflexivity. }
  destruct Hm as (-> & -> & -> & -> & ->).
  eexists. split; [reflexivity|]. unfold APIError_init.
  repeat split; by read_attrs.
Qed.

Lemma APIError_init_positional_witness :
  definer own_init KeyValueError = Some APIError ∧
  ∃ o, construct KeyValueError [PInt 400; PStr "invalid key"] ∅ = Ret o ∧
       getattr o "description" = Ret (PStr "invalid key") ∧
       getattr o "err_code" = Ret PNone.
Proof.
  assert (H1 : definer own_init KeyValueError = Some APIError) by reflexivity.
  split; [exact H1|].
  destruct (APIError_init_positional KeyValueError (PInt 400)
              (PStr "invalid key") H1)
    as (o & Ho & _ & _ & Hd & Hec & _).
  exists o. split; [exact Ho|]. split; [exact Hd|exact Hec].
Defined.

(** X22.  A class that renders through [Error.__str__] shows a
    description that is text as it is, after [nats: JetStream.<KindName>]
    and one space; the test for an empty description makes no difference
    to the text. *)
Theorem Error_str_description (o : obj) (d : string) :
  definer own_str (ob_class o) = Some Error →
  getattr o "description" = Ret (PStr d) →
  str_ o = Some (Ret ("nats: JetStream." +:+ cls_name (ob_class o) +:+ " "
                      +:+ d)).
Proof.
  intros Hdef Hd.
  assert (Hm : resolve own_str (ob_class o) = Some Error_str)
    by (by apply (resolve_definer own_str _ Error)).
  rewrite (str_by_class o _ Error_str eq_refl Hm).
  unfold Error_str. rewrite Hd. cbn [mbind pyres_bind truthy].
  destruct (String.eqb_spec d "") as [->|_]; reflexivity.
Qed.

Lemma Error_str_description_witness :
  let o := Obj InvalidBucketNameError
             {[ "description" := PStr "bucket names must be alphanumeric" ]} in
  definer own_str (ob_class o) = Some Error ∧
  getattr o "description" = Ret (PStr "bucket names must be alphanumeric") ∧
  str_ o = Some (Ret "nats: JetStream.InvalidBucketNameError bucket names must be alphanumeric").
Proof.
  intros o.
  assert (H1 : definer own_str (ob_class o) = Some Error) by reflexivity.
  assert (H2 : getattr o "description"
               = Ret (PStr "bucket names must be alphanumeric")) by reflexivity.
  repeat (split; [assumption|]).
  exact (Error_str_description o _ H1 H2).
Defined.

(** X23.  Six classes render as a fixed text whatever their attributes
    are, also with none at all; for [KeyDeletedError], [NoKeysError] and
    [KeyHistoryTooLargeError] the text replaces the format of [APIError],
    so a code or description given to them does not show. *)
Theorem fixed_messages (d : gmap string pyval) :
  str_ (Obj NoStreamResponseError d)
    = Some (Ret "nats: no response from stream") ∧
  str_ (Obj TooManyStalledMsgsError d)
    = Some (Ret "nats: stalled with too many outstanding async published messages") ∧
  str_ (Obj FetchTimeoutError d) = Some (Ret "nats: fetch timeout") ∧
  str_ (Obj KeyDeletedError d) = Some (Ret "nats: key was deleted") ∧
  str_ (Obj NoKeysError d) = Some (Ret "nats: no keys found") ∧
  str_ (Obj KeyHistoryTooLargeError d)
    = Some (Ret "nats: history limited to a max of 64").
Proof. repeat split; reflexivity. Qed.
